(** * Window generation, answer remapping and sample assembly of
      [src/preprocessing/dataset.py] (class [Dataset]).

    The Python class is embedded as functions over a record [Dataset] (the
    attributes of [self]).  Python integers are [Z], and so are numpy's
    64-bit integers: the quantities are token counts and positions, far
    from the 64-bit range, and no wrap-around is modelled; where numpy and
    Python differ on them (division by zero) the difference is written out.
    Lists are [list]; the two identifier-keyed dictionaries of tokenized
    blocks are [gmap]s with string keys; raising an exception is the
    [Raise] branch of [result]. *)

From stdpp Require Import base numbers list strings gmap.
From Stdlib Require Import ZArith Lia.

Local Open Scope Z_scope.

(** ** Exceptions and the error monad *)

(** The exception classes the modelled code paths can raise. *)
Inductive exn : Type :=
  | ZeroDivisionError   (* Python [//] with a zero divisor *)
  | ValueError          (* numpy / pandas shape errors, [list.index] miss *)
  | IndexError          (* [list.pop] on an empty list, [iloc] out of range *)
  | KeyError            (* missing dictionary key *)
  | FileNotFoundError   (* [read_pickle] on a missing file *)
  | UnboundLocalError.  (* local variable read before assignment *)

Inductive result (A : Type) : Type :=
  | Ok (a : A)
  | Raise (e : exn).
Arguments Ok {A} a.
Arguments Raise {A} e.

#[global] Instance result_ret : MRet result := @Ok.
#[global] Instance result_bind : MBind result := λ A B f m,
  match m with
  | Ok a => f a
  | Raise e => Raise e
  end.

#[global] Instance result_fmap : FMap result := λ A B f m,
  match m with
  | Ok a => Ok (f a)
  | Raise e => Raise e
  end.

Definition is_ok {A} (r : result A) : bool :=
  match r with Ok _ => true | Raise _ => false end.

(** [mapM] for [result]: the first exception, in list order, wins. *)
Fixpoint result_mapM {A B} (f : A → result B) (l : list A) : result (list B) :=
  match l with
  | [] => Ok []
  | x :: l' => y ← f x; ys ← result_mapM f l'; Ok (y :: ys)
  end.

(** ** Python primitives *)

(** [a // b] on Python integers: the quotient rounded towards minus
    infinity, [ZeroDivisionError] on [b = 0]. *)
Definition py_floordiv (a b : Z) : result Z :=
  if bool_decide (b = 0) then Raise ZeroDivisionError else Ok (a `div` b).

(** [a // b] when [b] is a numpy integer: the quotient rounded towards
    minus infinity; a zero divisor gives 0 (and a [RuntimeWarning]), not an
    exception. *)
Definition np_floor_divide (a b : Z) : Z :=
  if bool_decide (b = 0) then 0 else a `div` b.

(** Adjustment of one slice bound against a sequence of length [n]. *)
Definition py_slice_bound (n i : Z) : Z :=
  if bool_decide (i < 0) then Z.max (i + n) 0 else Z.min i n.

(** [l[a:b]] for a Python list. *)
Definition py_slice {A} (l : list A) (a b : Z) : list A :=
  let n := Z.of_nat (length l) in
  let a' := py_slice_bound n a in
  let b' := py_slice_bound n b in
  take (Z.to_nat (b' - a')) (drop (Z.to_nat a') l).

(** [l * k] for a one-element list [l = [x]]: empty when [k <= 0]. *)
Definition py_repeat {A} (x : A) (k : Z) : list A := replicate (Z.to_nat k) x.

(** [np.array(l) >= 0]: the element-wise comparison. *)
Definition np_ge0 (l : list Z) : list bool := (λ s, bool_decide (0 ≤ s)) <$> l.

(** [sum(bs)] over booleans: [True] counts 1, [False] counts 0. *)
Definition py_sum (bs : list bool) : Z :=
  foldl (λ acc (b : bool), acc + (if b then 1 else 0)) 0 bs.

(** [sum(np.array(l) >= 0)]: the number of non-negative entries. *)
Definition np_count_ge0 (l : list Z) : Z := py_sum (np_ge0 l).

(** [df.iloc[idx, :]]: row [idx], counted from the end when negative. *)
Definition py_iloc {A} (l : list A) (idx : Z) : result A :=
  let n := Z.of_nat (length l) in
  let i := if bool_decide (idx < 0) then idx + n else idx in
  if bool_decide (0 ≤ i < n) then
    match l !! Z.to_nat i with
    | Some x => Ok x
    | None => Raise IndexError
    end
  else Raise IndexError.

(** Truth value of an [Optional[List[str]]]: [None] and [[]] are false. *)
Definition py_truthy {A} (o : option (list A)) : bool :=
  match o with
  | Some (_ :: _) => true
  | _ => false
  end.

(** [l.index(x)]: position of the first occurrence, [ValueError] if none. *)
Definition py_index (x : Z) (l : list Z) : result Z :=
  match list_find (λ y, y = x) l with
  | Some (i, _) => Ok (Z.of_nat i)
  | None => Raise ValueError
  end.

(** ** Data *)

(** A pickled tokenized block, restricted to the two fields [Dataset] reads
    ([offset_mapping] and [sequence_ids] are never read: [__getitem__]
    builds [subcontext] from these two keys only, and [combine_qc] iterates
    over the keys of that dictionary). *)
Record Block : Type := {
  input_ids : list Z;
  attention_mask : list Z
}.

(** [tokenizer_info.json]. *)
Record TokenizerInfo : Type := {
  seperators : list Z;
  padding_id : Z
}.

(** One row of [answers_span.csv]. *)
Record Annotation : Type := {
  a_question_id : string;
  a_context_id : string;
  a_answer_start : Z;
  a_answer_end : Z
}.

(** One row of the span table (columns of [subsample_spans]). *)
Record SpanRecord : Type := {
  question_id : string;
  context_id : string;
  subcontext_start : Z;
  subcontext_end : Z;
  answer_start : Z;
  answer_end : Z
}.

(** The directory [tokenized_dir]: [context/<id>.pickle],
    [question/<id>.pickle], [tokenizer_info.json], [answers_span.csv]. *)
Record TokenizedDir : Type := {
  dir_context : gmap string Block;
  dir_question : gmap string Block;
  dir_tokenizer_info : TokenizerInfo;
  dir_answers_span : list Annotation
}.

(** The dictionary [self.content = {"context": ..., "question": ...}]. *)
Record Content : Type := {
  content_context : gmap string Block;
  content_question : gmap string Block
}.

Inductive instance_type : Type := question | context.

(** The attributes of [self]. *)
Record Dataset : Type := {
  tokenized_dir : TokenizedDir;
  max_length : Z;
  stride : Z;
  min_answer_length : Z;
  save_to_memory : bool;
  content : option Content;
  tokenizer_info : TokenizerInfo;
  answers_span : list Annotation;
  n_seps_before_context : Z;
  subsample_spans : list SpanRecord
}.

(** The dictionary returned by [__getitem__]. *)
Record Sample : Type := {
  s_input_ids : list Z;
  s_attention_mask : list Z;
  start_positions : Z;
  end_positions : Z
}.

(** ** [src.preprocessing.utils] *)

(** Modelled from the spec: [calculate_overlap] is imported from
    [src/preprocessing/utils.py], which is not among the sources.  The
    spec (4.2) defines the overlap used by the inclusion rule as the
    intersection length of the inclusive ranges
    [[context_start, context_end]] and [[ans_start, ans_end]], 0 if they
    are disjoint.  The only call site passes [ans_end + 1] as the last
    argument, so [end2] is an exclusive bound while [end1] is the inclusive
    window end. *)
Definition calculate_overlap (start1 end1 start2 end2 : Z) : Z :=
  Z.max 0 (Z.min end1 (end2 - 1) - Z.max start1 start2 + 1).

(** ** Methods of [Dataset] *)

(** [_get_instance]: the eager dictionaries when [self.content] is truthy
    (it has two keys whenever it is a dictionary), the pickle file
    otherwise. *)
Definition _get_instance (self : Dataset) (idenifier : string)
    (ty : instance_type) : result Block :=
  match content self with
  | Some c =>
      let d := match ty with
               | question => content_question c
               | context => content_context c
               end in
      match d !! idenifier with
      | Some b => Ok b
      | None => Raise KeyError
      end
  | None =>
      let d := match ty with
               | question => dir_question (tokenized_dir self)
               | context => dir_context (tokenized_dir self)
               end in
      match d !! idenifier with
      | Some b => Ok b
      | None => Raise FileNotFoundError
      end
  end.

(** The division of line 139.  [n_seps] is the [sum] of a numpy boolean
    array: a numpy integer, and with it [subcontext_max_length] and
    [stride_], unless the template is empty, when [sum] returns the Python
    integer 0 it starts from and the division is Python's. *)
Definition stride_floordiv (seps : list Z) (a b : Z) : result Z :=
  match seps with
  | [] => py_floordiv a b
  | _ :: _ => Ok (np_floor_divide a b)
  end.

(** Lines 134-146 of [generate_subsample_span]: the window array
    [subcontext_spans].  [np.repeat] with a negative count raises
    [ValueError]; with count 0 every array is empty. *)
Definition subcontext_spans (self : Dataset) (len_question len_context : Z)
    : result (list (Z * Z)) :=
  let n_seps := np_count_ge0 (seperators (tokenizer_info self)) in
  let subcontext_max_length := max_length self - len_question - n_seps in
  let stride_ := subcontext_max_length - stride self in
  q ← stride_floordiv (seperators (tokenizer_info self))
         (len_context - stride self) stride_;
  let n_sub := q + 1 in
  if bool_decide (n_sub < 0) then Raise ValueError
  else Ok ((λ i, (0 + 1 * stride_ * i,
                  (subcontext_max_length - 1) + 1 * stride_ * i))
           <$> seqZ 0 n_sub).

(** Lines 148-160: one remapped answer per window. *)
Definition shift_answer (self : Dataset) (len_question : Z)
    (answer_span : Z * Z) (window : Z * Z) : Z * Z :=
  let '(ans_start, ans_end) := answer_span in
  let '(context_start, context_end) := window in
  if bool_decide
       (Z.min (ans_end - ans_start + 1) (min_answer_length self)
        ≤ calculate_overlap context_start context_end ans_start (ans_end + 1))
  then (ans_start - context_start + len_question + n_seps_before_context self,
        ans_end - context_start + len_question + n_seps_before_context self)
  else (0, 0).

Definition answers_shifted (self : Dataset) (len_question : Z)
    (answer_span : Z * Z) (spans : list (Z * Z)) : list (Z * Z) :=
  shift_answer self len_question answer_span <$> spans.

(** [generate_subsample_span]: rows
    [(subcontext_start, subcontext_end, answer_start, answer_end)].
    [np.concatenate(..., axis=1)] of the (0, 2) window array with the empty
    list [answers_shifted] (one dimension) raises [ValueError]. *)
Definition generate_subsample_span (self : Dataset) (q c : Block)
    (answer_span : Z * Z) : result (list (Z * Z * Z * Z)) :=
  let len_question := Z.of_nat (length (input_ids q)) in
  let len_context := Z.of_nat (length (input_ids c)) in
  spans ← subcontext_spans self len_question len_context;
  let shifted := answers_shifted self len_question answer_span spans in
  match spans with
  | [] => Raise ValueError
  | _ => Ok ((λ '((s, e), (a, b)), (s, e, a, b)) <$> zip spans shifted)
  end.

(** One iteration of the loop of [generate_subsamples_span]. *)
Definition annotation_rows (self : Dataset) (a : Annotation)
    : result (list SpanRecord) :=
  c ← _get_instance self (a_context_id a) context;
  q ← _get_instance self (a_question_id a) question;
  rows ← generate_subsample_span self q c (a_answer_start a, a_answer_end a);
  Ok ((λ '(s, e, x, y),
        {| question_id := a_question_id a; context_id := a_context_id a;
           subcontext_start := s; subcontext_end := e;
           answer_start := x; answer_end := y |}) <$> (rows : list _)).

(** [generate_subsamples_span]; [pd.concat] of an empty list raises
    [ValueError]. *)
Definition generate_subsamples_span (self : Dataset)
    : result (list SpanRecord) :=
  frames ← result_mapM (annotation_rows self) (answers_span self);
  match frames with
  | [] => Raise ValueError
  | _ => Ok (concat frames)
  end.

(** The loop state of [combine_qc]: the two accumulated lists of [result]
    and the queue [content]. *)
Definition combine_step (st : result (Block * list Block)) (sep : Z)
    : result (Block * list Block) :=
  '(res, pending) ← st;
  if bool_decide (0 ≤ sep) then
    Ok ({| input_ids := input_ids res ++ [sep];
           attention_mask := attention_mask res ++ [1] |}, pending)
  else
    match pending with
    | [] => Raise IndexError
    | inst :: pending' =>
        Ok ({| input_ids := input_ids res ++ input_ids inst;
               attention_mask := attention_mask res ++ attention_mask inst |},
            pending')
    end.

Definition combine_loop (seps : list Z) (st : result (Block * list Block))
    : result (Block * list Block) :=
  foldl combine_step st seps.

(** [combine_qc], for a [context] dictionary with the keys [input_ids] and
    [attention_mask] (the only call, in [__getitem__]). *)
Definition combine_qc (self : Dataset) (q c : Block) : result Block :=
  fst <$> combine_loop (seperators (tokenizer_info self))
            (Ok ({| input_ids := []; attention_mask := [] |}, [q; c])).

(** The dictionary [subcontext] of [__getitem__]: both fields of the
    context sliced to [[subcontext_start : subcontext_end + 1]]. *)
Definition subcontext (c : Block) (row : SpanRecord) : Block :=
  {| input_ids :=
       py_slice (input_ids c) (subcontext_start row) (subcontext_end row + 1);
     attention_mask :=
       py_slice (attention_mask c) (subcontext_start row)
                (subcontext_end row + 1) |}.

(** [__getitem__], up to the conversion of every value to a tensor. *)
Definition __getitem__ (self : Dataset) (idx : Z) : result Sample :=
  row ← py_iloc (subsample_spans self) idx;
  q ← _get_instance self (question_id row) question;
  c ← _get_instance self (context_id row) context;
  subsample ← combine_qc self q (subcontext c row);
  let ids :=
    input_ids subsample
    ++ py_repeat (padding_id (tokenizer_info self))
         (max_length self - Z.of_nat (length (input_ids subsample))) in
  let mask :=
    attention_mask subsample
    ++ py_repeat 0
         (max_length self - Z.of_nat (length (attention_mask subsample))) in
  Ok {| s_input_ids := ids; s_attention_mask := mask;
        start_positions := answer_start row;
        end_positions := answer_end row |}.

(** [__len__]. *)
Definition __len__ (self : Dataset) : Z :=
  Z.of_nat (length (subsample_spans self)).

(** The mask [subsample_spans.answer_end > 0] handed to [resample]. *)
Definition answer_end_positive (rows : list SpanRecord) : list bool :=
  (λ r, bool_decide (0 < answer_end r)) <$> rows.

(** Lines 69-74 of [__init__]: the number of literal separators in front of
    the last [-1] entry. *)
Definition seps_before_context (seps : list Z) : result Z :=
  i ← py_index (-1) (reverse seps);
  let context_start := Z.of_nat (length seps) - (i + 1) in
  Ok (py_sum (py_slice (np_ge0 seps) 0 context_start)).

Section Construction.

(** [resample] is imported from [src/preprocessing/utils.py] and is an
    external collaborator (the Balancer): table and boolean mask in,
    table out. *)
Variable resample : list SpanRecord → list bool → list SpanRecord.

(** [__init__].  The local [questions] is bound only under
    [save_to_memory]; line 67 reads it whenever [selected_questions] is
    truthy. *)
Definition __init__ (dir : TokenizedDir)
    (max_length stride min_answer_length : Z) (save_to_memory : bool)
    (selected_questions : option (list string)) : result Dataset :=
  let questions : option (gmap string Block) :=
    if save_to_memory then Some (dir_question dir) else None in
  let content :=
    if save_to_memory then
      Some {| content_context := dir_context dir;
              content_question := dir_question dir |}
    else None in
  let tokenizer_info := dir_tokenizer_info dir in
  let answers_span := dir_answers_span dir in
  answers_span ←
    (if py_truthy selected_questions then
       let sel := default [] selected_questions in
       let answers_span' :=
         filter (λ a, a_question_id a ∈ sel) answers_span in
       match questions with
       | Some qs =>
           let questions' := filter (λ kv, kv.1 ∈ sel) qs in
           Ok answers_span'
       | None => Raise UnboundLocalError
       end
     else Ok answers_span);
  n_before ← seps_before_context (seperators tokenizer_info);
  let self :=
    {| tokenized_dir := dir; max_length := max_length; stride := stride;
       min_answer_length := min_answer_length;
       save_to_memory := save_to_memory; content := content;
       tokenizer_info := tokenizer_info; answers_span := answers_span;
       n_seps_before_context := n_before; subsample_spans := [] |} in
  subsample_spans ← generate_subsamples_span self;
  Ok {| tokenized_dir := dir; max_length := max_length; stride := stride;
        min_answer_length := min_answer_length;
        save_to_memory := save_to_memory; content := content;
        tokenizer_info := tokenizer_info; answers_span := answers_span;
        n_seps_before_context := n_before;
        subsample_spans :=
          resample subsample_spans (answer_end_positive subsample_spans) |}.

End Construction.

(** ** Quantities of the specification *)

(** The local variables of [generate_subsample_span], as functions of the
    inputs. *)
Definition subcontext_max_length (self : Dataset) (len_question : Z) : Z :=
  max_length self - len_question - np_count_ge0 (seperators (tokenizer_info self)).

Definition stride_ (self : Dataset) (len_question : Z) : Z :=
  subcontext_max_length self len_question - stride self.

Definition n_sub (self : Dataset) (len_question len_context : Z) : Z :=
  np_floor_divide (len_context - stride self) (stride_ self len_question) + 1.

(** The window list as the specification writes it:
    [(i * stride_, i * stride_ + subcontext_max_length - 1)] for
    [i] in [0..n_sub-1]. *)
Definition windows_spec (self : Dataset) (len_question len_context : Z)
    : list (Z * Z) :=
  (λ i, (i * stride_ self len_question,
         i * stride_ self len_question
         + subcontext_max_length self len_question - 1))
  <$> seqZ 0 (n_sub self len_question len_context).

(** Valid inputs of the window generator (spec 4.1). *)
Definition valid_window_input (self : Dataset) (len_question len_context : Z)
    : Prop :=
  0 ≤ len_question ∧ 1 ≤ len_context ∧ 0 < max_length self
  ∧ 0 ≤ stride self < subcontext_max_length self len_question
  ∧ 0 ≤ np_count_ge0 (seperators (tokenizer_info self)).

(** Number of content slots (negative entries) of a separator template. *)
Definition n_slots (seps : list Z) : nat := length (filter (λ s, s < 0) seps).

(** Number of integers common to the inclusive ranges [[s1, e1]] and
    [[s2, e2]]. *)
Definition range_overlap (s1 e1 s2 e2 : Z) : Z :=
  Z.max 0 (Z.min e1 e2 - Z.max s1 s2 + 1).

(** A dataset object with the given parameters and separator template, an
    empty directory and an empty table: enough to run the window generator,
    the remapper and the assembler on concrete inputs. *)
Definition config (max_length stride min_answer_length : Z) (seps : list Z)
    (n_before : Z) : Dataset :=
  let info := {| seperators := seps; padding_id := 0 |} in
  {| tokenized_dir :=
       {| dir_context := ∅; dir_question := ∅; dir_tokenizer_info := info;
          dir_answers_span := [] |};
     max_length := max_length; stride := stride;
     min_answer_length := min_answer_length; save_to_memory := false;
     content := None; tokenizer_info := info; answers_span := [];
     n_seps_before_context := n_before; subsample_spans := [] |}.

(** The object [self] with the given attribute values; in memory-resident
    mode [content] holds the two dictionaries read from the directory. *)
Definition dataset_object (dir : TokenizedDir)
    (max_length stride min_answer_length : Z) (save_to_memory : bool)
    (answers_span : list Annotation) (n_before : Z)
    (rows : list SpanRecord) : Dataset :=
  {| tokenized_dir := dir; max_length := max_length; stride := stride;
     min_answer_length := min_answer_length;
     save_to_memory := save_to_memory;
     content :=
       if save_to_memory then
         Some {| content_context := dir_context dir;
                 content_question := dir_question dir |}
       else None;
     tokenizer_info := dir_tokenizer_info dir; answers_span := answers_span;
     n_seps_before_context := n_before; subsample_spans := rows |}.

(** [self] with another annotation table. *)
Definition with_answers_span (self : Dataset) (anns : list Annotation)
    : Dataset :=
  {| tokenized_dir := tokenized_dir self; max_length := max_length self;
     stride := stride self; min_answer_length := min_answer_length self;
     save_to_memory := save_to_memory self; content := content self;
     tokenizer_info := tokenizer_info self; answers_span := anns;
     n_seps_before_context := n_seps_before_context self;
     subsample_spans := subsample_spans self |}.

(** Two annotations of the same question and context. *)
Definition same_ids (a a' : Annotation) : Prop :=
  a_question_id a = a_question_id a' ∧ a_context_id a = a_context_id a'.

(** The identifier and window columns of a table. *)
Definition window_columns (rows : list SpanRecord)
    : list (string * string * Z * Z) :=
  (λ r, (question_id r, context_id r, subcontext_start r, subcontext_end r))
  <$> rows.

(** The windows of one (question, context) pair, computed without any
    answer span: lookups, window generation, and the shape check of
    [np.concatenate]. *)
Definition annotation_windows (self : Dataset) (qid cid : string)
    : result (list (string * string * Z * Z)) :=
  c ← _get_instance self cid context;
  q ← _get_instance self qid question;
  spans ← subcontext_spans self (Z.of_nat (length (input_ids q)))
             (Z.of_nat (length (input_ids c)));
  match spans with
  | [] => Raise ValueError
  | _ => Ok ((λ w : Z * Z, (qid, cid, w.1, w.2)) <$> spans)
  end.


(** ** A concrete directory *)

(** A 12-token context ["c0"], a question ["q0"], and one annotation of
    the pair per answer span given. *)
Definition example_context : Block :=
  {| input_ids := [100; 101; 102; 103; 104; 105; 106; 107; 108; 109; 110; 111];
     attention_mask := [1; 1; 1; 1; 1; 1; 1; 1; 1; 1; 1; 1] |}.

Definition example_question : Block :=
  {| input_ids := [11; 12; 13]; attention_mask := [1; 1; 1] |}.

Definition empty_question : Block :=
  {| input_ids := []; attention_mask := [] |}.

Definition example_dir (q : Block) (seps : list Z) (answers : list (Z * Z))
    : TokenizedDir :=
  {| dir_context := {[ "c0" := example_context ]};
     dir_question := {[ "q0" := q ]};
     dir_tokenizer_info := {| seperators := seps; padding_id := 0 |};
     dir_answers_span :=
       (λ a, {| a_question_id := "q0"; a_context_id := "c0";
                a_answer_start := a.1; a_answer_end := a.2 |}) <$> answers |}.

(** A Balancer that hands the table back as it is; it stands for
    [resample] when the constructor is run on a concrete directory. *)
Definition keep_all (rows : list SpanRecord) (mask : list bool)
    : list SpanRecord := rows.

(** The row of ["q0"] and ["c0"] with the given window and answer. *)
Definition example_row (s e a b : Z) : SpanRecord :=
  {| question_id := "q0"; context_id := "c0";
     subcontext_start := s; subcontext_end := e;
     answer_start := a; answer_end := b |}.

(** The object built from [example_dir] in memory-resident mode with
    [max_length = 10], [stride = 1], [min_answer_length = 1], the template
    [[-1; 5; -1]] and the answer span [(2, 3)]. *)
Definition example_dataset : Dataset :=
  let dir := example_dir example_question [-1; 5; -1] [(2, 3)] in
  {| tokenized_dir := dir; max_length := 10; stride := 1;
     min_answer_length := 1; save_to_memory := true;
     content := Some {| content_context := dir_context dir;
                        content_question := dir_question dir |};
     tokenizer_info := dir_tokenizer_info dir;
     answers_span := dir_answers_span dir;
     n_seps_before_context := 1;
     subsample_spans :=
       [example_row 0 5 6 7; example_row 5 10 0 0; example_row 10 15 0 0] |}.

(** * Properties *)

(** ** Python primitives *)

Lemma result_bind_Ok {A B} (f : A → result B) (a : A) : Ok a ≫= f = f a.
Proof. done. Qed.

Lemma result_bind_inv {A B} (f : A → result B) (m : result A) (b : B) :
  m ≫= f = Ok b → ∃ a, m = Ok a ∧ f a = Ok b.
Proof. destruct m as [a|e]; [|done]. intros H. by exists a. Qed.

Lemma py_sum_from (bs : list bool) (z : Z) :
  foldl (λ acc (b : bool), acc + (if b then 1 else 0)) z bs
  = z + Z.of_nat (length (filter (λ b, b = true) bs)).
Proof.
  revert z. induction bs as [|b bs IH]; intros z; simpl.
  - lia.
  - rewrite IH. destruct b.
    + rewrite filter_cons_True by done. simpl. lia.
    + rewrite filter_cons_False by done. lia.
Qed.

Lemma py_sum_length (bs : list bool) :
  py_sum bs = Z.of_nat (length (filter (λ b, b = true) bs)).
Proof. unfold py_sum. rewrite py_sum_from. lia. Qed.

Lemma py_sum_nonneg (bs : list bool) : 0 ≤ py_sum bs.
Proof. rewrite py_sum_length. lia. Qed.

Lemma py_sum_app (xs ys : list bool) : py_sum (xs ++ ys) = py_sum xs + py_sum ys.
Proof. rewrite !py_sum_length, filter_app, length_app. lia. Qed.

Lemma np_count_ge0_filter (l : list Z) :
  np_count_ge0 l = Z.of_nat (length (filter (λ s, 0 ≤ s) l)).
Proof.
  unfold np_count_ge0. rewrite py_sum_length. f_equal.
  induction l as [|s l IH]; [done|].
  unfold np_ge0 in *. rewrite fmap_cons.
  destruct (decide (0 ≤ s)) as [Hs|Hs].
  - rewrite (filter_cons_True (λ s, 0 ≤ s)) by done.
    rewrite filter_cons_True by (by apply bool_decide_eq_true). simpl. lia.
  - rewrite (filter_cons_False (λ s, 0 ≤ s)) by done.
    rewrite filter_cons_False; [done|].
    rewrite bool_decide_eq_true. done.
Qed.

(** ** The window generator *)

(** The array expression of lines 141-146 is the arithmetic progression of
    the specification. *)
Lemma window_array_formula (sml st : Z) (n : Z) :
  (λ i, (0 + 1 * st * i, (sml - 1) + 1 * st * i)) <$> seqZ 0 n
  = (λ i, (i * st, i * st + sml - 1)) <$> seqZ 0 n.
Proof. apply list_fmap_ext. intros _ i _. f_equal; lia. Qed.

(** For a non-zero divisor the numpy quotient is the floor of the exact
    quotient. *)
Lemma np_floor_divide_floor (a b : Z) :
  b ≠ 0 → np_floor_divide a b = a `div` b.
Proof. intros Hb. unfold np_floor_divide. by rewrite bool_decide_eq_false_2. Qed.

Lemma np_floor_divide_zero (a : Z) : np_floor_divide a 0 = 0.
Proof. done. Qed.

(** The count of line 139 in the notation of the specification:
    [floor ((len_context - stride) / stride_) + 1]. *)
Lemma n_sub_floor (self : Dataset) (len_question len_context : Z) :
  stride_ self len_question ≠ 0 →
  n_sub self len_question len_context
  = (len_context - stride self) `div` stride_ self len_question + 1.
Proof. intros H. unfold n_sub. by rewrite np_floor_divide_floor. Qed.

Lemma stride_floordiv_numpy (seps : list Z) (a b : Z) :
  seps ≠ [] ∨ b ≠ 0 → stride_floordiv seps a b = Ok (np_floor_divide a b).
Proof.
  intros H. destruct seps as [|s seps]; [|done].
  destruct H as [H|H]; [done|].
  unfold stride_floordiv, py_floordiv, np_floor_divide.
  by rewrite !bool_decide_eq_false_2.
Qed.

(** With an empty template and [stride_ = 0] the Python division raises. *)
Lemma stride_floordiv_python_zero (a : Z) :
  stride_floordiv [] a 0 = Raise ZeroDivisionError.
Proof. done. Qed.

(** Case analysis of the window generator, the division being numpy's or
    exact: a negative count, or the progression. *)
Lemma subcontext_spans_cases (self : Dataset) (len_question len_context : Z) :
  seperators (tokenizer_info self) ≠ [] ∨ stride_ self len_question ≠ 0 →
  subcontext_spans self len_question len_context
  = if bool_decide (n_sub self len_question len_context < 0)
    then Raise ValueError
    else Ok (windows_spec self len_question len_context).
Proof.
  intros H.
  unfold subcontext_spans, windows_spec, n_sub, stride_, subcontext_max_length
    in *.
  rewrite stride_floordiv_numpy by done. rewrite result_bind_Ok.
  case_bool_decide; [done|]. by rewrite window_array_formula.
Qed.

(** A returned window list is the progression, with a count [>= 0]. *)
Lemma subcontext_spans_Ok_inv (self : Dataset) (len_question len_context : Z)
    (spans : list (Z * Z)) :
  subcontext_spans self len_question len_context = Ok spans →
  0 ≤ n_sub self len_question len_context
  ∧ spans = windows_spec self len_question len_context.
Proof.
  destruct (decide (seperators (tokenizer_info self) = []
                    ∧ stride_ self len_question = 0)) as [[Hs H0]|Hnum].
  - unfold subcontext_spans, stride_, subcontext_max_length in *.
    rewrite Hs in *. simpl in H0. simpl. rewrite H0. done.
  - rewrite subcontext_spans_cases.
    + case_bool_decide; [done|]. intros [= <-]. split; [lia|done].
    + destruct (decide (seperators (tokenizer_info self) = [])); [|by left].
      right. intros H0. by apply Hnum.
Qed.

Lemma windows_spec_length (self : Dataset) (len_question len_context : Z) :
  0 ≤ n_sub self len_question len_context →
  Z.of_nat (length (windows_spec self len_question len_context))
  = n_sub self len_question len_context.
Proof. intros H. unfold windows_spec. rewrite length_fmap, length_seqZ. lia. Qed.

Lemma windows_spec_lookup (self : Dataset) (len_question len_context : Z)
    (i : nat) (w : Z * Z) :
  windows_spec self len_question len_context !! i = Some w →
  w = (Z.of_nat i * stride_ self len_question,
       Z.of_nat i * stride_ self len_question
       + subcontext_max_length self len_question - 1)
  ∧ Z.of_nat i < n_sub self len_question len_context.
Proof.
  unfold windows_spec. rewrite list_lookup_fmap.
  destruct (seqZ 0 _ !! i) as [j|] eqn:Hj; [|done].
  apply lookup_seqZ in Hj as [-> Hlt]. simpl. intros [= <-].
  split; [f_equal; lia | lia].
Qed.

Lemma valid_window_input_stride_pos (self : Dataset) (len_question len_context : Z) :
  valid_window_input self len_question len_context →
  0 < stride_ self len_question.
Proof. unfold valid_window_input, stride_. lia. Qed.

(** C1 (as amended): for every valid input whose window count
    [n_sub = (len_context - stride) // stride_ + 1] is not negative, the
    window generator returns exactly the list
    [(i * stride_, i * stride_ + subcontext_max_length - 1)], [i] in
    [0..n_sub-1]; every window has length [subcontext_max_length] and two
    consecutive windows share exactly [stride] tokens. *)
Theorem window_list_progression (self : Dataset) (len_question len_context : Z) :
  valid_window_input self len_question len_context →
  0 ≤ n_sub self len_question len_context →
  subcontext_spans self len_question len_context
    = Ok (windows_spec self len_question len_context)
  ∧ (∀ w, w ∈ windows_spec self len_question len_context →
          w.2 - w.1 + 1 = subcontext_max_length self len_question)
  ∧ (∀ (i : nat) w1 w2,
        windows_spec self len_question len_context !! i = Some w1 →
        windows_spec self len_question len_context !! S i = Some w2 →
        range_overlap w1.1 w1.2 w2.1 w2.2 = stride self).
Proof.
  intros Hvalid Hn.
  pose proof (valid_window_input_stride_pos _ _ _ Hvalid) as Hpos.
  split; [|split].
  - rewrite subcontext_spans_cases by (right; lia).
    by rewrite bool_decide_eq_false_2 by lia.
  - intros w [i Hi]%list_elem_of_lookup.
    apply windows_spec_lookup in Hi as [-> _]. simpl. lia.
  - intros i w1 w2 H1 H2.
    apply windows_spec_lookup in H1 as [-> _].
    apply windows_spec_lookup in H2 as [-> _].
    destruct Hvalid as (_ & _ & _ & Hstride & _).
    unfold range_overlap, stride_ in *. simpl. lia.
Qed.

(** At a valid input with [len_context < stride] the count is negative and
    [np.repeat] raises: no window list is returned. *)
Lemma window_list_short_context_raises :
  valid_window_input (config 10 5 1 [-1; 5; -1] 1) 3 1
  ∧ subcontext_spans (config 10 5 1 [-1; 5; -1] 1) 3 1 = Raise ValueError
  ∧ subcontext_spans (config 10 5 1 [-1; 5; -1] 1) 3 1
    ≠ Ok (windows_spec (config 10 5 1 [-1; 5; -1] 1) 3 1).
Proof.
  split; [|split].
  - unfold valid_window_input. vm_compute. repeat split; discriminate.
  - reflexivity.
  - discriminate.
Qed.

Lemma window_list_progression_witness :
  subcontext_spans (config 10 1 1 [-1; 5; -1] 1) 3 12
    = Ok [(0, 5); (5, 10); (10, 15)]
  ∧ range_overlap 0 5 5 10 = 1.
Proof.
  assert (Hvalid : valid_window_input (config 10 1 1 [-1; 5; -1] 1) 3 12).
  { unfold valid_window_input. vm_compute. repeat split; discriminate. }
  assert (Hn : 0 ≤ n_sub (config 10 1 1 [-1; 5; -1] 1) 3 12).
  { vm_compute. discriminate. }
  destruct (window_list_progression _ _ _ Hvalid Hn) as (Heq & _ & Hov).
  split.
  - rewrite Heq. reflexivity.
  - apply (Hov 0%nat (0, 5) (5, 10)); reflexivity.
Defined.

(** C4 (as amended): the count [n_sub = (len_context - stride) // stride_ + 1]
    is not clamped; for a valid configuration and a context with
    [len_context >= stride] it is at least 1 and the window generator
    returns exactly [n_sub] windows, hence at least one. *)
Theorem window_count_at_least_one (self : Dataset) (len_question len_context : Z) :
  valid_window_input self len_question len_context →
  stride self ≤ len_context →
  n_sub self len_question len_context
    = (len_context - stride self) `div` stride_ self len_question + 1
  ∧ 1 ≤ n_sub self len_question len_context
  ∧ ∃ ws, subcontext_spans self len_question len_context = Ok ws
          ∧ Z.of_nat (length ws) = n_sub self len_question len_context.
Proof.
  intros Hvalid Hlen.
  pose proof (valid_window_input_stride_pos _ _ _ Hvalid) as Hpos.
  assert (Hq : 0 ≤ (len_context - stride self) `div` stride_ self len_question)
    by (apply Z.div_pos; lia).
  assert (Hn : 1 ≤ n_sub self len_question len_context).
  { rewrite n_sub_floor by lia. lia. }
  split; [apply n_sub_floor; lia|]. split; [done|].
  exists (windows_spec self len_question len_context). split.
  - rewrite subcontext_spans_cases by (right; lia).
    by rewrite bool_decide_eq_false_2 by lia.
  - apply windows_spec_length. lia.
Qed.

(** A valid configuration and a one-token context shorter than the stride:
    the count is 0 and the window list is empty. *)
Lemma window_count_zero_short_context :
  valid_window_input (config 10 3 1 [-1; 5; -1] 1) 3 1
  ∧ n_sub (config 10 3 1 [-1; 5; -1] 1) 3 1 = 0
  ∧ subcontext_spans (config 10 3 1 [-1; 5; -1] 1) 3 1 = Ok [].
Proof.
  split; [|split].
  - unfold valid_window_input. vm_compute. repeat split; discriminate.
  - reflexivity.
  - reflexivity.
Qed.

Lemma window_count_at_least_one_witness :
  n_sub (config 10 1 1 [-1; 5; -1] 1) 3 6
    = (6 - stride (config 10 1 1 [-1; 5; -1] 1))
      `div` stride_ (config 10 1 1 [-1; 5; -1] 1) 3 + 1
  ∧ 1 ≤ n_sub (config 10 1 1 [-1; 5; -1] 1) 3 6
  ∧ ∃ ws, subcontext_spans (config 10 1 1 [-1; 5; -1] 1) 3 6 = Ok ws
          ∧ Z.of_nat (length ws) = n_sub (config 10 1 1 [-1; 5; -1] 1) 3 6.
Proof.
  apply (window_count_at_least_one (config 10 1 1 [-1; 5; -1] 1) 3 6).
  - unfold valid_window_input. vm_compute. repeat split; discriminate.
  - simpl. lia.
Defined.

(** C3 (as amended): the window generator has no configuration check and
    raises no configuration error.  With a non-empty separator template (any
    constructed object has one) it fails, with [ValueError] and before any
    window is built, exactly when the count [n_sub] is negative; otherwise,
    also for [subcontext_max_length <= 0] or [stride_ <= 0], it returns the
    [n_sub] windows of the progression.  For [stride_ = 0] the numpy
    division gives 0 and the single window
    [(0, subcontext_max_length - 1)] is returned. *)
Theorem window_generation_failures (self : Dataset) (len_question len_context : Z) :
  seperators (tokenizer_info self) ≠ [] →
  (n_sub self len_question len_context < 0 →
     subcontext_spans self len_question len_context = Raise ValueError)
  ∧ (0 ≤ n_sub self len_question len_context →
     subcontext_spans self len_question len_context
       = Ok (windows_spec self len_question len_context)
     ∧ Z.of_nat (length (windows_spec self len_question len_context))
       = n_sub self len_question len_context)
  ∧ (stride_ self len_question = 0 →
     subcontext_spans self len_question len_context
       = Ok [(0, subcontext_max_length self len_question - 1)]).
Proof.
  intros Hseps. rewrite subcontext_spans_cases by (by left). repeat split.
  - intros Hn. by rewrite bool_decide_eq_true_2.
  - by rewrite bool_decide_eq_false_2 by lia.
  - by apply windows_spec_length.
  - intros H0. unfold windows_spec, n_sub. rewrite H0, np_floor_divide_zero.
    rewrite bool_decide_eq_false_2 by lia. simpl. reflexivity.
Qed.

(** No failure for a non-positive [subcontext_max_length] (first part) nor
    for a negative [stride_] (second part): windows are returned. *)
Lemma window_generation_no_configuration_error :
  (subcontext_max_length (config 4 1 1 [-1; 5; 5; 5; -1] 3) 3 = -2
   ∧ subcontext_spans (config 4 1 1 [-1; 5; 5; 5; -1] 3) 3 1 = Ok [(0, -3)])
  ∧ (subcontext_max_length (config 10 8 1 [-1; 5; -1] 1) 3 = 6
     ∧ stride_ (config 10 8 1 [-1; 5; -1] 1) 3 = -2
     ∧ subcontext_spans (config 10 8 1 [-1; 5; -1] 1) 3 6
       = Ok [(0, 5); (-2, 3)]).
Proof. repeat split. Qed.

(** [stride = subcontext_max_length]: [stride_] is the numpy integer 0, the
    quotient is 0, and one window is returned. *)
Lemma window_generation_zero_stride :
  stride_ (config 10 6 1 [-1; 5; -1] 1) 3 = 0
  ∧ subcontext_spans (config 10 6 1 [-1; 5; -1] 1) 3 6 = Ok [(0, 5)].
Proof. split; reflexivity. Qed.

Lemma window_generation_failures_witness :
  subcontext_spans (config 10 5 1 [-1; 5; -1] 1) 3 1 = Raise ValueError
  ∧ subcontext_spans (config 10 8 1 [-1; 5; -1] 1) 3 6 = Ok [(0, 5); (-2, 3)]
  ∧ subcontext_spans (config 10 6 1 [-1; 5; -1] 1) 3 6 = Ok [(0, 5)].
Proof.
  split; [|split].
  - apply (window_generation_failures (config 10 5 1 [-1; 5; -1] 1) 3 1).
    + discriminate.
    + vm_compute. reflexivity.
  - destruct (window_generation_failures (config 10 8 1 [-1; 5; -1] 1) 3 6)
      as (_ & H & _); [discriminate|].
    destruct H as [-> _]; [vm_compute; discriminate | reflexivity].
  - apply (window_generation_failures (config 10 6 1 [-1; 5; -1] 1) 3 6).
    + discriminate.
    + reflexivity.
Defined.

(** ** The answer remapper *)

(** [range_overlap] counts the integers of [[s1, e1]] that lie in
    [[s2, e2]]. *)
Lemma range_overlap_count_from (s2 e2 : Z) (k : nat) (s : Z) :
  Z.of_nat (length (filter (λ x, s2 ≤ x ≤ e2) (seqZ s (Z.of_nat k))))
  = Z.max 0 (Z.min (s + Z.of_nat k - 1) e2 - Z.max s s2 + 1).
Proof.
  revert s. induction k as [|k IH]; intros s.
  - simpl. lia.
  - rewrite seqZ_cons by lia.
    replace (Z.pred (Z.of_nat (S k))) with (Z.of_nat k) by lia.
    destruct (decide (s2 ≤ s ≤ e2)) as [Hin|Hout].
    + rewrite filter_cons_True by done. simpl length.
      rewrite Nat2Z.inj_succ, IH. lia.
    + rewrite filter_cons_False by done. rewrite IH. lia.
Qed.

Lemma range_overlap_count (s1 e1 s2 e2 : Z) :
  range_overlap s1 e1 s2 e2
  = Z.of_nat (length (filter (λ x, s2 ≤ x ≤ e2) (seqZ s1 (e1 - s1 + 1)))).
Proof.
  unfold range_overlap.
  destruct (decide (0 ≤ e1 - s1 + 1)) as [Hn|Hn].
  - rewrite <- (Z2Nat.id (e1 - s1 + 1)) by done.
    rewrite range_overlap_count_from. lia.
  - rewrite seqZ_nil by lia. simpl. lia.
Qed.

(** The call of line 155 computes the overlap of the inclusive ranges. *)
Lemma calculate_overlap_inclusive (s1 e1 s2 e2 : Z) :
  calculate_overlap s1 e1 s2 (e2 + 1) = range_overlap s1 e1 s2 e2.
Proof.
  unfold calculate_overlap, range_overlap.
  by replace (e2 + 1 - 1) with e2 by lia.
Qed.

Lemma shift_answer_included (self : Dataset) (len_question : Z)
    (ans_start ans_end context_start context_end : Z) :
  Z.min (ans_end - ans_start + 1) (min_answer_length self)
    ≤ range_overlap context_start context_end ans_start ans_end →
  shift_answer self len_question (ans_start, ans_end)
    (context_start, context_end)
  = (ans_start - context_start + len_question + n_seps_before_context self,
     ans_end - context_start + len_question + n_seps_before_context self).
Proof.
  intros H. unfold shift_answer. rewrite calculate_overlap_inclusive.
  by rewrite bool_decide_eq_true_2.
Qed.



(** Rows of [generate_subsample_span]: every window of the generator, in
    order, each with its remapped answer. *)
Lemma zip_answers_shifted (f : Z * Z → Z * Z) (spans : list (Z * Z)) :
  (λ '((s, e), (a, b)), (s, e, a, b)) <$> zip spans (f <$> spans)
  = (λ w, (w.1, w.2, (f w).1, (f w).2)) <$> spans.
Proof.
  induction spans as [|[s e] spans IH]; [done|].
  rewrite !fmap_cons. cbn [zip_with]. rewrite fmap_cons, IH.
  by destruct (f (s, e)).
Qed.

Lemma generate_subsample_span_rows (self : Dataset) (q c : Block)
    (answer_span : Z * Z) (rows : list (Z * Z * Z * Z)) :
  generate_subsample_span self q c answer_span = Ok rows →
  ∃ spans,
    subcontext_spans self (Z.of_nat (length (input_ids q)))
      (Z.of_nat (length (input_ids c))) = Ok spans
    ∧ spans ≠ []
    ∧ rows = (λ w, (w.1, w.2,
                    (shift_answer self (Z.of_nat (length (input_ids q)))
                       answer_span w).1,
                    (shift_answer self (Z.of_nat (length (input_ids q)))
                       answer_span w).2)) <$> spans.
Proof.
  unfold generate_subsample_span, answers_shifted.
  destruct (subcontext_spans _ _ _) as [spans|e]; [|done].
  rewrite result_bind_Ok. intros H.
  exists spans. split; [done|].
  rewrite <- zip_answers_shifted.
  destruct spans as [|w spans]; [done|].
  split; [done|]. congruence.
Qed.

(** ** The assembler *)

Lemma combine_step_literal (res : Block) (pending : list Block) (sep : Z) :
  0 ≤ sep →
  combine_step (Ok (res, pending)) sep
  = Ok ({| input_ids := input_ids res ++ [sep];
           attention_mask := attention_mask res ++ [1] |}, pending).
Proof.
  intros H. unfold combine_step. rewrite result_bind_Ok.
  by rewrite bool_decide_eq_true_2.
Qed.

Lemma combine_step_slot (res inst : Block) (pending : list Block) (sep : Z) :
  sep < 0 →
  combine_step (Ok (res, inst :: pending)) sep
  = Ok ({| input_ids := input_ids res ++ input_ids inst;
           attention_mask := attention_mask res ++ attention_mask inst |},
        pending).
Proof.
  intros H. unfold combine_step. rewrite result_bind_Ok.
  by rewrite bool_decide_eq_false_2 by lia.
Qed.

Lemma combine_step_slot_empty (res : Block) (sep : Z) :
  sep < 0 → combine_step (Ok (res, [])) sep = Raise IndexError.
Proof.
  intros H. unfold combine_step. rewrite result_bind_Ok.
  by rewrite bool_decide_eq_false_2 by lia.
Qed.

Lemma combine_loop_cons (sep : Z) (seps : list Z)
    (st : result (Block * list Block)) :
  combine_loop (sep :: seps) st = combine_loop seps (combine_step st sep).
Proof. done. Qed.

Lemma combine_loop_app (l1 l2 : list Z) (st : result (Block * list Block)) :
  combine_loop (l1 ++ l2) st = combine_loop l2 (combine_loop l1 st).
Proof. apply foldl_app. Qed.

Lemma combine_loop_Raise (seps : list Z) (e : exn) :
  combine_loop seps (Raise e) = Raise e.
Proof. induction seps as [|s seps IH]; [done|]. by rewrite combine_loop_cons. Qed.

(** A run of literal entries appends the entries themselves, with mask 1,
    and leaves the queue alone. *)
Lemma combine_loop_literals (l : list Z) (res : Block) (pending : list Block) :
  Forall (λ s, 0 ≤ s) l →
  combine_loop l (Ok (res, pending))
  = Ok ({| input_ids := input_ids res ++ l;
           attention_mask := attention_mask res ++ replicate (length l) 1 |},
        pending).
Proof.
  intros Hl. revert res. induction Hl as [|s l Hs Hl IH]; intros res.
  - simpl. rewrite !app_nil_r. by destruct res.
  - rewrite combine_loop_cons, combine_step_literal by done.
    rewrite IH. simpl. by rewrite <- !app_assoc.
Qed.

(** C10: in the assembler every negative template entry, whatever its value,
    consumes the next pending block in full (the question for the first
    negative entry, the context window for the second), and the entries
    [>= 0] are the only ones emitted as tokens, each with attention mask
    1. *)
Theorem combine_qc_negative_entries_are_slots (self : Dataset) (q c : Block)
    (l1 l2 l3 : list Z) (s1 s2 : Z) :
  seperators (tokenizer_info self) = l1 ++ s1 :: l2 ++ s2 :: l3 →
  Forall (λ s, 0 ≤ s) l1 → Forall (λ s, 0 ≤ s) l2 → Forall (λ s, 0 ≤ s) l3 →
  s1 < 0 → s2 < 0 →
  combine_qc self q c
  = Ok {| input_ids := l1 ++ input_ids q ++ l2 ++ input_ids c ++ l3;
          attention_mask :=
            replicate (length l1) 1 ++ attention_mask q
            ++ replicate (length l2) 1 ++ attention_mask c
            ++ replicate (length l3) 1 |}.
Proof.
  intros Hseps H1 H2 H3 Hs1 Hs2. unfold combine_qc. rewrite Hseps.
  rewrite combine_loop_app, combine_loop_literals by done.
  rewrite combine_loop_cons, combine_step_slot by done.
  rewrite combine_loop_app, combine_loop_literals by done.
  rewrite combine_loop_cons, combine_step_slot by done.
  rewrite combine_loop_literals by done.
  simpl. by rewrite <- !app_assoc.
Qed.

Lemma combine_qc_negative_entries_are_slots_witness :
  combine_qc (config 10 1 1 [101; -7; 102; -3; 103] 2)
    {| input_ids := [7; 8]; attention_mask := [1; 1] |}
    {| input_ids := [20; 21; 22]; attention_mask := [1; 1; 0] |}
  = Ok {| input_ids := [101; 7; 8; 102; 20; 21; 22; 103];
          attention_mask := [1; 1; 1; 1; 1; 1; 0; 1] |}.
Proof.
  refine (combine_qc_negative_entries_are_slots
            (config 10 1 1 [101; -7; 102; -3; 103] 2)
            {| input_ids := [7; 8]; attention_mask := [1; 1] |}
            {| input_ids := [20; 21; 22]; attention_mask := [1; 1; 0] |}
            [101] [102] [103] (-7) (-3) eq_refl _ _ _ _ _).
  - repeat constructor; lia.
  - repeat constructor; lia.
  - repeat constructor; lia.
  - lia.
  - lia.
Defined.

(** Lengths after the loop of [combine_qc]: one token per literal entry and
    one whole block per negative entry, blocks taken from the front of the
    queue. *)
Lemma combine_loop_lengths (seps : list Z) (res : Block) (pending : list Block) :
  (n_slots seps ≤ length pending)%nat →
  ∃ res',
    combine_loop seps (Ok (res, pending))
      = Ok (res', drop (n_slots seps) pending)
    ∧ length (input_ids res')
      = (length (input_ids res) + length (filter (λ s : Z, (0 ≤ s)%Z) seps)
         + sum_list ((length ∘ input_ids) <$> take (n_slots seps) pending))%nat
    ∧ length (attention_mask res')
      = (length (attention_mask res) + length (filter (λ s : Z, (0 ≤ s)%Z) seps)
         + sum_list ((length ∘ attention_mask) <$> take (n_slots seps) pending))%nat.
Proof.
  revert res pending. unfold n_slots.
  induction seps as [|s seps IH]; intros res pending Hlen.
  - exists res. simpl. rewrite drop_0. repeat split; lia.
  - rewrite combine_loop_cons. destruct (decide (0 ≤ s)) as [Hs|Hs].
    + rewrite combine_step_literal by done.
      rewrite (filter_cons_False (λ s, s < 0)) in * by lia.
      rewrite (filter_cons_True (λ s, 0 ≤ s)) by done.
      destruct (IH {| input_ids := input_ids res ++ [s];
                      attention_mask := attention_mask res ++ [1] |}
                   pending Hlen) as (res' & Hrun & Hids & Hmask).
      exists res'. split; [done|].
      rewrite Hids, Hmask. simpl. rewrite !length_app. simpl. lia.
    + rewrite (filter_cons_True (λ s, s < 0)) in * by lia.
      rewrite (filter_cons_False (λ s, 0 ≤ s)) by done.
      destruct pending as [|inst pending]; [simpl in Hlen; lia|].
      rewrite combine_step_slot by lia.
      destruct (IH {| input_ids := input_ids res ++ input_ids inst;
                      attention_mask := attention_mask res ++ attention_mask inst |}
                   pending ltac:(simpl in Hlen; lia))
        as (res' & Hrun & Hids & Hmask).
      exists res'. split; [done|].
      rewrite Hids, Hmask. simpl. rewrite !length_app. unfold fmap. lia.
Qed.

(** With more negative entries than queued blocks, [content.pop(0)] fails. *)
Lemma combine_loop_too_many_slots (seps : list Z) (res : Block)
    (pending : list Block) :
  (length pending < n_slots seps)%nat →
  combine_loop seps (Ok (res, pending)) = Raise IndexError.
Proof.
  revert res pending. unfold n_slots.
  induction seps as [|s seps IH]; intros res pending Hlen.
  - simpl in Hlen. lia.
  - rewrite combine_loop_cons. destruct (decide (0 ≤ s)) as [Hs|Hs].
    + rewrite combine_step_literal by done.
      rewrite (filter_cons_False (λ s, s < 0)) in Hlen by lia. by apply IH.
    + rewrite (filter_cons_True (λ s, s < 0)) in Hlen by lia.
      destruct pending as [|inst pending].
      * rewrite combine_step_slot_empty by lia. apply combine_loop_Raise.
      * rewrite combine_step_slot by lia. apply IH. simpl in Hlen. lia.
Qed.

Lemma combine_qc_two_slots (self : Dataset) (q c : Block) :
  n_slots (seperators (tokenizer_info self)) = 2%nat →
  ∃ sub,
    combine_qc self q c = Ok sub
    ∧ Z.of_nat (length (input_ids sub))
      = Z.of_nat (length (input_ids q)) + Z.of_nat (length (input_ids c))
        + np_count_ge0 (seperators (tokenizer_info self))
    ∧ Z.of_nat (length (attention_mask sub))
      = Z.of_nat (length (attention_mask q))
        + Z.of_nat (length (attention_mask c))
        + np_count_ge0 (seperators (tokenizer_info self)).
Proof.
  intros Hslots. unfold combine_qc.
  destruct (combine_loop_lengths (seperators (tokenizer_info self))
              {| input_ids := []; attention_mask := [] |} [q; c])
    as (sub & Hrun & Hids & Hmask).
  { rewrite Hslots. simpl. lia. }
  exists sub. rewrite Hrun. split; [done|].
  rewrite np_count_ge0_filter, Hids, Hmask, Hslots. simpl. lia.
Qed.

(** ** Slices *)



Lemma py_repeat_length {A} (x : A) (k : Z) :
  Z.of_nat (length (py_repeat x k)) = Z.max 0 k.
Proof. unfold py_repeat. rewrite length_replicate. lia. Qed.

(** ** Generated rows *)

Lemma subcontext_spans_window_length (self : Dataset)
    (len_question len_context : Z) (spans : list (Z * Z)) (w : Z * Z) :
  subcontext_spans self len_question len_context = Ok spans →
  w ∈ spans →
  w.2 + 1 - w.1 = subcontext_max_length self len_question.
Proof.
  intros [_ ->]%subcontext_spans_Ok_inv.
  intros [i Hi]%list_elem_of_lookup.
  apply windows_spec_lookup in Hi as [-> _]. simpl. lia.
Qed.

(** Every row of [generate_subsample_span] is a window of
    [subcontext_max_length] tokens together with its remapped answer. *)
Lemma generated_row (self : Dataset) (q c : Block) (answer_span : Z * Z)
    (rows : list (Z * Z * Z * Z)) (s e a b : Z) :
  generate_subsample_span self q c answer_span = Ok rows →
  (s, e, a, b) ∈ rows →
  e + 1 - s = subcontext_max_length self (Z.of_nat (length (input_ids q)))
  ∧ (a, b) = shift_answer self (Z.of_nat (length (input_ids q)))
               answer_span (s, e).
Proof.
  intros Hgen Hin.
  apply generate_subsample_span_rows in Hgen as (spans & Hspans & _ & ->).
  apply list_elem_of_fmap in Hin as (w & Heq & Hw).
  injection Heq as -> -> -> ->. split.
  - by apply (subcontext_spans_window_length _ _ _ _ _ Hspans).
  - destruct w as [s e]. simpl. by destruct (shift_answer _ _ _ _).
Qed.

(** ** Assembled samples *)

(** X17: for a template with two content slots the returned [input_ids]
    has [max_length] entries, or the length assembled before padding when
    that is larger: [[padding_id] * k] is empty for a negative [k] and
    nothing is truncated. *)
Lemma assembled_sample_length_general (self : Dataset) (idx : Z)
    (row : SpanRecord) (q c : Block) :
  n_slots (seperators (tokenizer_info self)) = 2%nat →
  py_iloc (subsample_spans self) idx = Ok row →
  _get_instance self (question_id row) question = Ok q →
  _get_instance self (context_id row) context = Ok c →
  ∃ sample,
    __getitem__ self idx = Ok sample
    ∧ Z.of_nat (length (s_input_ids sample))
      = Z.max (max_length self)
          (Z.of_nat (length (input_ids q))
           + Z.of_nat (length (input_ids (subcontext c row)))
           + np_count_ge0 (seperators (tokenizer_info self))).
Proof.
  intros Hslots Hrow Hgq Hgc.
  destruct (combine_qc_two_slots self q (subcontext c row) Hslots)
    as (sub & Hsub & Hids & _).
  eexists. split.
  { unfold __getitem__. rewrite Hrow, result_bind_Ok, Hgq, result_bind_Ok.
    rewrite Hgc, result_bind_Ok, Hsub, result_bind_Ok. reflexivity. }
  cbn [s_input_ids].
  rewrite length_app, Nat2Z.inj_add, py_repeat_length, <- Hids. lia.
Qed.



(** The constructor run on the concrete directory gives [example_dataset]. *)
Lemma init_example_dataset :
  __init__ keep_all (example_dir example_question [-1; 5; -1] [(2, 3)])
    10 1 1 true None
  = Ok example_dataset.
Proof. reflexivity. Qed.

(** ** Bounds of the remapped span *)

Lemma py_slice_prefix {A} (l : list A) (k : Z) :
  ∃ m, py_slice l 0 k = take m l.
Proof.
  unfold py_slice, py_slice_bound. eexists.
  rewrite (bool_decide_eq_false_2 (0 < 0)) by lia.
  rewrite (Z.min_l 0) by lia. simpl. rewrite drop_0. reflexivity.
Qed.

Lemma py_sum_take_le (bs : list bool) (m : nat) :
  0 ≤ py_sum (take m bs) ≤ py_sum bs.
Proof.
  rewrite <- (take_drop m bs) at 3. rewrite py_sum_app.
  pose proof (py_sum_nonneg (take m bs)).
  pose proof (py_sum_nonneg (drop m bs)). lia.
Qed.

(** The count computed by lines 69-74 lies between 0 and the number of
    literal separators. *)
Lemma seps_before_context_bounds (seps : list Z) (n : Z) :
  seps_before_context seps = Ok n → 0 ≤ n ≤ np_count_ge0 seps.
Proof.
  unfold seps_before_context. intros H.
  apply result_bind_inv in H as (i & _ & H). injection H as <-.
  destruct (py_slice_prefix (np_ge0 seps)
              (Z.of_nat (length seps) - (i + 1))) as [m ->].
  apply py_sum_take_le.
Qed.

(** A position inside both the slice bounds and the list is inside the
    slice. *)
Lemma py_slice_covers {A} (l : list A) (a b x : Z) :
  0 ≤ a ≤ x → x < b → x < Z.of_nat (length l) →
  x - a < Z.of_nat (length (py_slice l a b)).
Proof.
  intros Hax Hxb Hxl. unfold py_slice, py_slice_bound.
  rewrite length_take, length_drop.
  repeat case_bool_decide; lia.
Qed.

(** An included answer that is no longer than [min_answer_length] lies
    inside the window. *)
Lemma included_short_answer_inside (ans_start ans_end cs ce mal : Z) :
  ans_start ≤ ans_end →
  ans_end - ans_start + 1 ≤ mal →
  Z.min (ans_end - ans_start + 1) mal ≤ range_overlap cs ce ans_start ans_end →
  cs ≤ ans_start ∧ ans_end ≤ ce.
Proof. unfold range_overlap. lia. Qed.

(** C5 (as amended): for a window with [context_start >= 0] and an answer
    with [ans_start <= ans_end < len_context] that passes the inclusion
    rule, the remapped span has [mapped_end >= mapped_start]; when the
    answer is no longer than [min_answer_length], or lies inside the window,
    also [mapped_start >= 0] and [mapped_end] is a position of the sequence
    assembled before padding. *)
Theorem remapped_span_bounds (self : Dataset) (q c : Block)
    (ans_start ans_end cs ce : Z) :
  n_slots (seperators (tokenizer_info self)) = 2%nat →
  seps_before_context (seperators (tokenizer_info self))
    = Ok (n_seps_before_context self) →
  0 ≤ cs →
  ans_start ≤ ans_end →
  ans_end < Z.of_nat (length (input_ids c)) →
  Z.min (ans_end - ans_start + 1) (min_answer_length self)
    ≤ range_overlap cs ce ans_start ans_end →
  ∃ mapped_start mapped_end sub,
    shift_answer self (Z.of_nat (length (input_ids q)))
      (ans_start, ans_end) (cs, ce) = (mapped_start, mapped_end)
    ∧ combine_qc self q
        {| input_ids := py_slice (input_ids c) cs (ce + 1);
           attention_mask := py_slice (attention_mask c) cs (ce + 1) |}
      = Ok sub
    ∧ mapped_start ≤ mapped_end
    ∧ (ans_end - ans_start + 1 ≤ min_answer_length self
       ∨ (cs ≤ ans_start ∧ ans_end ≤ ce) →
       0 ≤ mapped_start ∧ mapped_end < Z.of_nat (length (input_ids sub))).
Proof.
  intros Hslots Hbefore Hcs Hans Hlen Hincl.
  destruct (combine_qc_two_slots self q
              {| input_ids := py_slice (input_ids c) cs (ce + 1);
                 attention_mask := py_slice (attention_mask c) cs (ce + 1) |}
              Hslots) as (sub & Hsub & Hids & _).
  pose proof (shift_answer_included self (Z.of_nat (length (input_ids q)))
                ans_start ans_end cs ce Hincl) as Hshift.
  apply seps_before_context_bounds in Hbefore.
  eexists _, _, sub. split; [exact Hshift|]. split; [exact Hsub|].
  split; [lia|]. intros Hinside.
  assert (cs ≤ ans_start ∧ ans_end ≤ ce) as [Hlo Hhi].
  { destruct Hinside as [Hshort|Hin]; [|done].
    by apply (included_short_answer_inside _ _ _ _ (min_answer_length self)). }
  split; [lia|].
  rewrite Hids. simpl.
  pose proof (py_slice_covers (input_ids c) cs (ce + 1) ans_end
                ltac:(lia) ltac:(lia) Hlen).
  lia.
Qed.

(** Included answers that only partly overlap their window: the first is
    remapped to a negative start, the second to an end beyond the ten
    tokens assembled before padding. *)
Lemma remapped_span_outside_sequence :
  (Z.min (5 - 0 + 1) (min_answer_length (config 10 1 1 [-1; 5; -1] 1))
     ≤ range_overlap 5 10 0 5
   ∧ shift_answer (config 10 1 1 [-1; 5; -1] 1) 3 (0, 5) (5, 10) = (-1, 4))
  ∧ (Z.min (9 - 4 + 1) (min_answer_length (config 10 1 1 [-1; 5; -1] 1))
       ≤ range_overlap 0 5 4 9
     ∧ shift_answer (config 10 1 1 [-1; 5; -1] 1) 3 (4, 9) (0, 5) = (8, 13)
     ∧ (λ sub, Z.of_nat (length (input_ids sub)))
         <$> combine_qc (config 10 1 1 [-1; 5; -1] 1) example_question
               {| input_ids := py_slice (input_ids example_context) 0 (5 + 1);
                  attention_mask :=
                    py_slice (attention_mask example_context) 0 (5 + 1) |}
       = Ok 10).
Proof.
  split; [split | split; [|split]].
  - vm_compute. discriminate.
  - reflexivity.
  - vm_compute. discriminate.
  - reflexivity.
  - reflexivity.
Qed.

Lemma remapped_span_bounds_witness :
  ∃ sub,
    shift_answer (config 10 1 1 [-1; 5; -1] 1) 3 (2, 3) (0, 5) = (6, 7)
    ∧ combine_qc (config 10 1 1 [-1; 5; -1] 1) example_question
        {| input_ids := py_slice (input_ids example_context) 0 (5 + 1);
           attention_mask :=
             py_slice (attention_mask example_context) 0 (5 + 1) |}
      = Ok sub
    ∧ 7 < Z.of_nat (length (input_ids sub)).
Proof.
  destruct (remapped_span_bounds (config 10 1 1 [-1; 5; -1] 1)
              example_question example_context 2 3 0 5)
    as (ms & me & sub & Hshift & Hsub & _ & Hin).
  - reflexivity.
  - reflexivity.
  - lia.
  - lia.
  - vm_compute. reflexivity.
  - vm_compute. discriminate.
  - exists sub.
    assert (Heq : (ms, me) = (6, 7)) by (rewrite <- Hshift; reflexivity).
    injection Heq as -> ->.
    split; [reflexivity|]. split; [exact Hsub|].
    apply Hin. right. lia.
Defined.

(** ** Construction *)

Lemma init_inv (resample : list SpanRecord → list bool → list SpanRecord)
    (dir : TokenizedDir) (ml st mal : Z) (mem : bool)
    (sel : option (list string)) (ds : Dataset) :
  __init__ resample dir ml st mal mem sel = Ok ds →
  ∃ anns nb rows,
    seps_before_context (seperators (dir_tokenizer_info dir)) = Ok nb
    ∧ generate_subsamples_span (dataset_object dir ml st mal mem anns nb [])
      = Ok rows
    ∧ ds = dataset_object dir ml st mal mem anns nb
             (resample rows (answer_end_positive rows)).
Proof.
  unfold __init__. intros H.
  apply result_bind_inv in H as (anns & _ & H).
  apply result_bind_inv in H as (nb & Hnb & H).
  apply result_bind_inv in H as (rows & Hrows & H).
  injection H as <-. exists anns, nb, rows.
  split; [exact Hnb|]. split; [|reflexivity].
  destruct mem; exact Hrows.
Qed.

(** The table builder does not read the attribute [subsample_spans]. *)
Lemma generate_subsamples_span_table_irrelevant (dir : TokenizedDir)
    (ml st mal : Z) (mem : bool) (anns : list Annotation) (nb : Z)
    (rows rows' : list SpanRecord) :
  generate_subsamples_span (dataset_object dir ml st mal mem anns nb rows)
  = generate_subsamples_span (dataset_object dir ml st mal mem anns nb rows').
Proof. reflexivity. Qed.

(** C7 (as amended): the constructor hands the Balancer the table of
    [generate_subsamples_span] with the mask [answer_end > 0] (a row is
    classified answerable exactly when the end of its remapped answer is
    positive), and the Balancer's output becomes the table of the object. *)
Theorem init_calls_balancer
    (resample : list SpanRecord → list bool → list SpanRecord)
    (dir : TokenizedDir) (ml st mal : Z) (mem : bool)
    (sel : option (list string)) (ds : Dataset) :
  __init__ resample dir ml st mal mem sel = Ok ds →
  ∃ rows,
    generate_subsamples_span ds = Ok rows
    ∧ subsample_spans ds = resample rows (answer_end_positive rows)
    ∧ length (answer_end_positive rows) = length rows
    ∧ ∀ (i : nat) r, rows !! i = Some r →
        answer_end_positive rows !! i = Some (bool_decide (0 < answer_end r)).
Proof.
  intros H. apply init_inv in H as (anns & nb & rows & _ & Hrows & ->).
  exists rows. split; [|split; [|split]].
  - rewrite <- Hrows. apply generate_subsamples_span_table_irrelevant.
  - reflexivity.
  - unfold answer_end_positive. apply length_fmap.
  - intros i r Hr. unfold answer_end_positive.
    by rewrite list_lookup_fmap, Hr.
Qed.

(** On the rows of an annotation with [ans_start <= ans_end], with
    [min_answer_length >= 1] and at least one token or separator in front of
    the context, the mask [answer_end > 0] singles out the rows whose
    remapped answer is not [(0, 0)]. *)
Lemma mask_matches_sentinel_test (self : Dataset) (q c : Block)
    (ans_start ans_end : Z) (rows : list (Z * Z * Z * Z)) (s e a b : Z) :
  generate_subsample_span self q c (ans_start, ans_end) = Ok rows →
  (s, e, a, b) ∈ rows →
  ans_start ≤ ans_end →
  1 ≤ min_answer_length self →
  1 ≤ Z.of_nat (length (input_ids q)) + n_seps_before_context self →
  0 < b ↔ (a, b) ≠ (0, 0).
Proof.
  intros Hgen Hin Hans Hmal Hfront.
  destruct (generated_row _ _ _ _ _ _ _ _ _ Hgen Hin) as [_ Hshift].
  unfold shift_answer in Hshift. rewrite calculate_overlap_inclusive in Hshift.
  case_bool_decide as Hincl.
  - injection Hshift as -> ->. unfold range_overlap in Hincl.
    split; [intros Hb [= _ Hb0]; lia | intros _; lia].
  - injection Hshift as -> ->. split; [lia | done].
Qed.

(** With an empty window list the row table cannot be assembled:
    [generate_subsample_span] raises instead of returning no row. *)
Lemma generate_subsample_span_no_window (self : Dataset) (q c : Block)
    (answer_span : Z * Z) :
  subcontext_spans self (Z.of_nat (length (input_ids q)))
    (Z.of_nat (length (input_ids c))) = Ok [] →
  generate_subsample_span self q c answer_span = Raise ValueError.
Proof. intros H. unfold generate_subsample_span. by rewrite H. Qed.

(** A valid configuration ([len_question = 0], no literal separator) and a
    valid answer: the second row carries the remapped answer [(-2, 0)],
    which is not the sentinel, and the mask classifies it unanswerable. *)
Lemma balancer_mask_is_not_the_sentinel_test :
  subsample_spans
    <$> __init__ keep_all (example_dir empty_question [-1; -1] [(3, 5)])
          6 1 1 true None
  = Ok [example_row 0 5 3 5; example_row 5 10 (-2) 0; example_row 10 15 0 0]
  ∧ answer_end_positive
      [example_row 0 5 3 5; example_row 5 10 (-2) 0; example_row 10 15 0 0]
    = [true; false; false]
  ∧ (answer_start (example_row 5 10 (-2) 0),
     answer_end (example_row 5 10 (-2) 0)) ≠ (0, 0).
Proof. split; [reflexivity|]. split; [reflexivity|]. discriminate. Qed.

Lemma init_calls_balancer_witness :
  subsample_spans example_dataset
  = keep_all
      [example_row 0 5 6 7; example_row 5 10 0 0; example_row 10 15 0 0]
      [true; false; false].
Proof.
  destruct (init_calls_balancer keep_all
              (example_dir example_question [-1; 5; -1] [(2, 3)])
              10 1 1 true None example_dataset)
    as (rows & Hrows & Htable & _).
  - reflexivity.
  - assert (Heq : rows = [example_row 0 5 6 7; example_row 5 10 0 0;
                          example_row 10 15 0 0]).
    { assert (Hrun : generate_subsamples_span example_dataset
                     = Ok [example_row 0 5 6 7; example_row 5 10 0 0;
                           example_row 10 15 0 0]) by reflexivity.
      rewrite Hrun in Hrows. by injection Hrows. }
    rewrite Htable, Heq. reflexivity.
Defined.

(** ** Annotations are not validated *)

Lemma result_mapM_ext {A B} (f g : A → result B) (l : list A) :
  (∀ a, f a = g a) → result_mapM f l = result_mapM g l.
Proof.
  intros Hfg. induction l as [|x l IH]; [done|].
  simpl. by rewrite Hfg, IH.
Qed.

Lemma result_mapM_fmap {A B C} (g : B → C) (f : A → result B) (l : list A) :
  fmap (M:=result) (fmap (M:=list) g) (result_mapM f l)
  = result_mapM (λ a, fmap (M:=result) g (f a)) l.
Proof.
  induction l as [|x l IH]; [done|].
  simpl. rewrite <- IH.
  destruct (f x) as [y|e]; [|done].
  by destruct (result_mapM f l) as [ys|e].
Qed.

Lemma window_columns_concat (frames : list (list SpanRecord)) :
  window_columns (concat frames) = concat (window_columns <$> frames).
Proof.
  unfold window_columns.
  induction frames as [|fr frames IH]; [done|].
  simpl. by rewrite fmap_app, IH.
Qed.

Lemma rows_window_columns (qid cid : string) (f : Z * Z → Z * Z)
    (spans : list (Z * Z)) :
  window_columns
    ((λ '(s, e, x, y),
        {| question_id := qid; context_id := cid;
           subcontext_start := s; subcontext_end := e;
           answer_start := x; answer_end := y |})
     <$> ((λ '((s, e), (a, b)), (s, e, a, b)) <$> zip spans (f <$> spans)))
  = (λ w : Z * Z, (qid, cid, w.1, w.2)) <$> spans.
Proof.
  rewrite zip_answers_shifted. unfold window_columns.
  rewrite <- !list_fmap_compose. apply list_fmap_ext.
  intros _ [s e] _. reflexivity.
Qed.

(** The identifier and window columns of one annotation's rows do not
    depend on its answer span. *)
Lemma annotation_rows_windows (self : Dataset) (a : Annotation) :
  window_columns <$> annotation_rows self a
  = annotation_windows self (a_question_id a) (a_context_id a).
Proof.
  unfold annotation_rows, annotation_windows.
  destruct (_get_instance self (a_context_id a) context) as [c|e]; [|done].
  rewrite !result_bind_Ok.
  destruct (_get_instance self (a_question_id a) question) as [q|e]; [|done].
  rewrite !result_bind_Ok. unfold generate_subsample_span, answers_shifted.
  destruct (subcontext_spans _ _ _) as [spans|e]; [|done].
  rewrite !result_bind_Ok.
  pose proof (rows_window_columns (a_question_id a) (a_context_id a)
                (shift_answer self (Z.of_nat (length (input_ids q)))
                   (a_answer_start a, a_answer_end a)) spans) as Hcols.
  destruct spans as [|w spans]; [done|].
  rewrite result_bind_Ok. simpl fmap at 1. unfold fmap at 1. simpl.
  f_equal. exact Hcols.
Qed.

Lemma generate_subsamples_span_windows (self : Dataset) :
  window_columns <$> generate_subsamples_span self
  = frames ← result_mapM
               (λ a, annotation_windows self (a_question_id a) (a_context_id a))
               (answers_span self);
    match frames with
    | [] => Raise ValueError
    | _ => Ok (concat frames)
    end.
Proof.
  unfold generate_subsamples_span.
  rewrite <- (result_mapM_ext _ _ _ (annotation_rows_windows self)).
  rewrite <- result_mapM_fmap.
  destruct (result_mapM (annotation_rows self) (answers_span self))
    as [frames|e]; [|done].
  destruct frames as [|fr frames]; [done|].
  simpl. f_equal. apply (window_columns_concat (fr :: frames)).
Qed.

Lemma annotation_windows_same_ids (self : Dataset) (anns anns' : list Annotation) :
  Forall2 same_ids anns anns' →
  result_mapM (λ a, annotation_windows self (a_question_id a) (a_context_id a))
    anns
  = result_mapM
      (λ a, annotation_windows self (a_question_id a) (a_context_id a)) anns'.
Proof.
  induction 1 as [|a a' anns anns' [Hq Hc] _ IH]; [done|].
  simpl. by rewrite Hq, Hc, IH.
Qed.

(** C8 (as amended): the table builder does not validate annotations and
    raises no integrity error: whether it succeeds, which exception it
    raises otherwise, and the identifier and window columns of the table it
    builds are the same for any two annotation tables that name the same
    questions and contexts, whatever their answer spans. *)
Theorem annotations_are_not_validated (self : Dataset)
    (anns anns' : list Annotation) :
  Forall2 same_ids anns anns' →
  window_columns <$> generate_subsamples_span (with_answers_span self anns)
  = window_columns <$> generate_subsamples_span (with_answers_span self anns').
Proof.
  intros Hids. rewrite !generate_subsamples_span_windows.
  change (answers_span (with_answers_span self anns)) with anns.
  change (answers_span (with_answers_span self anns')) with anns'.
  rewrite (annotation_windows_same_ids (with_answers_span self anns) _ _ Hids).
  reflexivity.
Qed.

(** An annotation with [answer_end < answer_start] and one far outside the
    12-token context: the constructor returns a six-row table. *)
Lemma construction_accepts_invalid_annotations :
  subsample_spans
    <$> __init__ keep_all
          (example_dir example_question [-1; 5; -1] [(3, 1); (100, 200)])
          10 1 1 true None
  = Ok [example_row 0 5 7 5; example_row 5 10 2 0; example_row 10 15 (-3) (-5);
        example_row 0 5 0 0; example_row 5 10 0 0; example_row 10 15 0 0].
Proof. reflexivity. Qed.

Lemma annotations_are_not_validated_witness :
  window_columns
    <$> generate_subsamples_span
          (with_answers_span example_dataset
             (dir_answers_span
                (example_dir example_question [-1; 5; -1] [(3, 1)])))
  = Ok (window_columns (subsample_spans example_dataset)).
Proof.
  rewrite (annotations_are_not_validated example_dataset
             (dir_answers_span
                (example_dir example_question [-1; 5; -1] [(3, 1)]))
             (dir_answers_span
                (example_dir example_question [-1; 5; -1] [(2, 3)]))).
  - reflexivity.
  - repeat constructor.
Defined.

(** ** Memory-resident and lazy mode *)









(** C9 (failing input): in lazy mode ([save_to_memory = False]) with a
    non-empty [selected_questions], line 67 reads the local [questions],
    which only the memory-resident branch binds: the constructor raises
    [UnboundLocalError] and there is no object to take samples from. *)
Theorem lazy_mode_selected_questions_raises
    (resample : list SpanRecord → list bool → list SpanRecord)
    (dir : TokenizedDir) (ml st mal : Z) (sel : option (list string)) :
  py_truthy sel = true →
  __init__ resample dir ml st mal false sel = Raise UnboundLocalError.
Proof. intros Hsel. unfold __init__. by rewrite Hsel. Qed.

(** The same directory and parameters in the two modes. *)
Lemma lazy_mode_selected_questions_raises_witness :
  __init__ keep_all (example_dir example_question [-1; 5; -1] [(2, 3)])
    10 1 1 false (Some ["q0"])
  = Raise UnboundLocalError
  ∧ __init__ keep_all (example_dir example_question [-1; 5; -1] [(2, 3)])
      10 1 1 true (Some ["q0"])
    = Ok example_dataset
  ∧ is_ok (__getitem__ example_dataset 0) = true.
Proof.
  split; [|split].
  - apply (lazy_mode_selected_questions_raises keep_all).
    reflexivity.
  - reflexivity.
  - reflexivity.
Defined.

(** * Further properties of the class *)

(** ** The separator count of [__init__] *)

Lemma py_slice_take {A} (l : list A) (k : nat) :
  (k ≤ length l)%nat → py_slice l 0 (Z.of_nat k) = take k l.
Proof.
  intros Hk. unfold py_slice, py_slice_bound.
  rewrite (bool_decide_eq_false_2 (0 < 0)) by lia.
  rewrite (bool_decide_eq_false_2 (Z.of_nat k < 0)) by lia.
  rewrite (Z.min_l 0) by lia. rewrite Z.min_l by lia.
  rewrite Z.sub_0_r, Nat2Z.id. simpl. by rewrite drop_0.
Qed.

Lemma py_index_reverse_last (pre post : list Z) :
  -1 ∉ post →
  py_index (-1) (reverse (pre ++ -1 :: post)) = Ok (Z.of_nat (length post)).
Proof.
  intros Hpost. unfold py_index.
  assert (Hfind : list_find (λ y, y = -1) (reverse (pre ++ -1 :: post))
                  = Some (length post, -1)).
  { apply list_find_Some. rewrite reverse_app, reverse_cons, <- app_assoc.
    split; [|split; [done|]].
    - rewrite lookup_app_r by (rewrite length_reverse; lia).
      rewrite length_reverse.
      by replace (length post - length post)%nat with 0%nat by lia.
    - intros j y Hj Hlt ->. apply Hpost.
      rewrite lookup_app_l in Hj by (rewrite length_reverse; lia).
      apply list_elem_of_lookup_2 in Hj. by apply elem_of_reverse. }
  by rewrite Hfind.
Qed.

(** For a template whose last entry equal to [-1] is preceded by [pre],
    lines 69-74 return the number of non-negative entries of [pre]. *)
Lemma seps_before_context_split (pre post : list Z) :
  -1 ∉ post →
  seps_before_context (pre ++ -1 :: post) = Ok (np_count_ge0 pre).
Proof.
  intros Hpost. unfold seps_before_context.
  rewrite py_index_reverse_last by done. rewrite result_bind_Ok.
  replace (Z.of_nat (length (pre ++ -1 :: post))
           - (Z.of_nat (length post) + 1))
    with (Z.of_nat (length pre))
    by (rewrite length_app; simpl; lia).
  rewrite py_slice_take
    by (unfold np_ge0; rewrite length_fmap, length_app; lia).
  unfold np_count_ge0, np_ge0. rewrite fmap_app.
  by rewrite take_app_length' by (by rewrite length_fmap).
Qed.

(** X1: lines 69-74 return [n] exactly when the template has an entry equal
    to [-1] and [n] is the number of non-negative entries in front of the
    last such entry; other negative entries are neither counted nor taken
    for the context slot. *)
Theorem seps_before_context_last_slot (seps : list Z) (n : Z) :
  seps_before_context seps = Ok n
  ↔ ∃ pre post,
      seps = pre ++ -1 :: post ∧ (-1 ∉ post) ∧ n = np_count_ge0 pre.
Proof.
  split.
  - intros Hok.
    assert (Hin : -1 ∈ seps).
    { unfold seps_before_context, py_index in Hok.
      destruct (list_find (λ y, y = -1) (reverse seps)) as [[i y]|] eqn:Hfind;
        [|done].
      apply list_find_Some in Hfind as (Hi & -> & _).
      apply elem_of_reverse. by apply list_elem_of_lookup_2 with i. }
    apply list_elem_of_split_r in Hin as (pre & post & -> & Hpost).
    exists pre, post. split; [done|]. split; [done|].
    rewrite seps_before_context_split in Hok by done. by injection Hok.
  - intros (pre & post & -> & Hpost & ->).
    by apply seps_before_context_split.
Qed.

Lemma seps_before_context_raises (seps : list Z) :
  -1 ∉ seps → seps_before_context seps = Raise ValueError.
Proof.
  intros Hnot. unfold seps_before_context, py_index.
  destruct (list_find (λ y, y = -1) (reverse seps)) as [[i y]|] eqn:Hfind;
    [|done].
  exfalso. apply list_find_Some in Hfind as (Hi & -> & _).
  apply Hnot. apply elem_of_reverse. by apply list_elem_of_lookup_2 with i.
Qed.

(** X2: lines 69-74 raise [ValueError] exactly for the templates with no
    entry equal to [-1]; the other negative entries, which the assembler
    treats as slots, do not count. *)
Theorem seps_before_context_no_slot (seps : list Z) :
  seps_before_context seps = Raise ValueError ↔ -1 ∉ seps.
Proof.
  split; [|apply seps_before_context_raises].
  intros Hraise Hin.
  apply list_elem_of_split_r in Hin as (pre & post & -> & Hpost).
  by rewrite seps_before_context_split in Hraise.
Qed.

(** ** Coverage of the context by the windows *)

Lemma windows_spec_lookup_lt (self : Dataset) (len_question len_context : Z)
    (i : Z) :
  0 ≤ i < n_sub self len_question len_context →
  windows_spec self len_question len_context !! Z.to_nat i
  = Some (i * stride_ self len_question,
          i * stride_ self len_question
          + subcontext_max_length self len_question - 1).
Proof.
  intros Hi. unfold windows_spec.
  rewrite list_lookup_fmap, lookup_seqZ_lt by lia.
  simpl. rewrite Z2Nat.id by lia. reflexivity.
Qed.

(** Euclidean division by the effective stride. *)
Lemma stride_division (a st : Z) :
  0 < st → st * (a `div` st) ≤ a < st * (a `div` st) + st.
Proof.
  intros Hst. pose proof (Z.div_mod a st ltac:(lia)).
  pose proof (Z.mod_pos_bound a st Hst). lia.
Qed.

(** X3: under a valid configuration and for a context at least as long as
    the stride, every token position of the context lies in one of the
    generated windows: no token is left out. *)
Theorem windows_cover_context (self : Dataset) (len_question len_context p : Z) :
  valid_window_input self len_question len_context →
  stride self ≤ len_context →
  0 ≤ p < len_context →
  ∃ ws w,
    subcontext_spans self len_question len_context = Ok ws
    ∧ w ∈ ws ∧ w.1 ≤ p ≤ w.2.
Proof.
  intros Hvalid Hlen Hp.
  pose proof (valid_window_input_stride_pos _ _ _ Hvalid) as Hpos.
  destruct Hvalid as (_ & _ & _ & Hstride & _).
  set (st := stride_ self len_question) in *.
  set (q := (len_context - stride self) `div` st).
  pose proof (stride_division (len_context - stride self) st Hpos) as Hq.
  pose proof (stride_division p st Hpos) as Hpd.
  assert (Hq0 : 0 ≤ q) by (apply Z.div_pos; lia).
  assert (Hp0 : 0 ≤ p `div` st) by (apply Z.div_pos; lia).
  assert (Hn : n_sub self len_question len_context = q + 1).
  { rewrite n_sub_floor by (fold st; lia). reflexivity. }
  fold q in Hq.
  set (i := Z.min (p `div` st) q).
  exists (windows_spec self len_question len_context),
         (i * st, i * st + subcontext_max_length self len_question - 1).
  split; [|split].
  - rewrite subcontext_spans_cases by (right; fold st; lia).
    by rewrite bool_decide_eq_false_2 by lia.
  - apply (list_elem_of_lookup_2 _ (Z.to_nat i)).
    apply windows_spec_lookup_lt. lia.
  - simpl. unfold stride_ in st.
    destruct (Z.min_spec (p `div` st) q) as [[Hlt Hi]|[Hge Hi]];
      fold i in Hi; rewrite Hi.
    + split; [lia|]. fold st in Hpd. lia.
    + assert (st * q ≤ st * (p `div` st)) by (apply Z.mul_le_mono_nonneg_l; lia).
      split; [lia|]. subst st. lia.
Qed.

Lemma windows_cover_context_witness :
  ∃ ws w,
    subcontext_spans (config 10 1 1 [-1; 5; -1] 1) 3 12 = Ok ws
    ∧ w ∈ ws ∧ w.1 ≤ 11 ≤ w.2.
Proof.
  apply (windows_cover_context (config 10 1 1 [-1; 5; -1] 1) 3 12 11).
  - unfold valid_window_input. vm_compute. repeat split; discriminate.
  - simpl. lia.
  - lia.
Defined.

Lemma py_slice_length_nonneg {A} (l : list A) (a b : Z) :
  0 ≤ a → 0 ≤ b →
  Z.of_nat (length (py_slice l a b))
  = Z.max 0 (Z.min b (Z.of_nat (length l)) - Z.min a (Z.of_nat (length l))).
Proof.
  intros Ha Hb. unfold py_slice, py_slice_bound.
  rewrite length_take, length_drop.
  rewrite !bool_decide_eq_false_2 by lia. lia.
Qed.

(** X4: under a valid configuration and for a context at least as long as
    the stride, every window but the last lies inside the context and its
    slice has [subcontext_max_length] tokens; the last window always ends
    beyond the context, and its slice has at least [stride] and fewer than
    [subcontext_max_length] tokens. *)
Theorem window_slice_lengths (self : Dataset) (len_question : Z)
    (tokens : list Z) (ws : list (Z * Z)) (i : nat) (w : Z * Z) :
  valid_window_input self len_question (Z.of_nat (length tokens)) →
  stride self ≤ Z.of_nat (length tokens) →
  subcontext_spans self len_question (Z.of_nat (length tokens)) = Ok ws →
  ws !! i = Some w →
  ((S i < length ws)%nat
   ∧ w.2 < Z.of_nat (length tokens)
   ∧ Z.of_nat (length (py_slice tokens w.1 (w.2 + 1)))
     = subcontext_max_length self len_question)
  ∨ (S i = length ws
     ∧ Z.of_nat (length tokens) ≤ w.2
     ∧ stride self ≤ Z.of_nat (length (py_slice tokens w.1 (w.2 + 1)))
       < subcontext_max_length self len_question).
Proof.
  intros Hvalid Hlen Hws Hw.
  pose proof (valid_window_input_stride_pos _ _ _ Hvalid) as Hpos.
  destruct Hvalid as (_ & _ & _ & Hstride & _).
  apply subcontext_spans_Ok_inv in Hws as [Hn ->].
  apply windows_spec_lookup in Hw as [-> Hi].
  rewrite <- (Nat2Z.id (length (windows_spec _ _ _))).
  rewrite windows_spec_length by done.
  set (lc := Z.of_nat (length tokens)) in *.
  set (st := stride_ self len_question) in *.
  pose proof (stride_division (lc - stride self) st Hpos) as Hq.
  assert (Hq0 : 0 ≤ (lc - stride self) `div` st) by (apply Z.div_pos; lia).
  rewrite n_sub_floor in * by (fold st; lia). fold st in Hi |- *.
  set (q := (lc - stride self) `div` st) in *.
  assert (Hst : st = subcontext_max_length self len_question - stride self)
    by reflexivity.
  cbn [fst snd].
  rewrite py_slice_length_nonneg by lia. fold lc.
  destruct (decide (Z.of_nat i < q)) as [Hlt|Hlast].
  - left.
    assert (st * (Z.of_nat i + 1) ≤ st * q)
      by (apply Z.mul_le_mono_nonneg_l; lia).
    split; [lia|]. split; lia.
  - right. assert (Z.of_nat i = q) as -> by lia.
    split; [lia|]. split; lia.
Qed.

Lemma window_slice_lengths_witness :
  Z.of_nat (length (py_slice (input_ids example_context) 5 (10 + 1))) = 6
  ∧ 1 ≤ Z.of_nat (length (py_slice (input_ids example_context) 10 (15 + 1))) < 6.
Proof.
  assert (Hvalid : valid_window_input (config 10 1 1 [-1; 5; -1] 1) 3
                     (Z.of_nat (length (input_ids example_context)))).
  { unfold valid_window_input. vm_compute. repeat split; discriminate. }
  assert (Hlen : stride (config 10 1 1 [-1; 5; -1] 1)
                 ≤ Z.of_nat (length (input_ids example_context)))
    by (vm_compute; discriminate).
  split.
  - destruct (window_slice_lengths (config 10 1 1 [-1; 5; -1] 1) 3
                (input_ids example_context) [(0, 5); (5, 10); (10, 15)]
                1%nat (5, 10) Hvalid Hlen eq_refl eq_refl)
      as [(_ & _ & H)|(Hlast & _)]; [exact H | discriminate Hlast].
  - destruct (window_slice_lengths (config 10 1 1 [-1; 5; -1] 1) 3
                (input_ids example_context) [(0, 5); (5, 10); (10, 15)]
                2%nat (10, 15) Hvalid Hlen eq_refl eq_refl)
      as [(Hnot & _)|(_ & _ & H)]; [simpl in Hnot; lia | exact H].
Defined.

(** ** Success of [generate_subsample_span] *)

Lemma generate_subsample_span_of_spans (self : Dataset) (q c : Block)
    (answer_span : Z * Z) (spans : list (Z * Z)) :
  subcontext_spans self (Z.of_nat (length (input_ids q)))
    (Z.of_nat (length (input_ids c))) = Ok spans →
  spans ≠ [] →
  generate_subsample_span self q c answer_span
  = Ok ((λ w, (w.1, w.2,
               (shift_answer self (Z.of_nat (length (input_ids q)))
                  answer_span w).1,
               (shift_answer self (Z.of_nat (length (input_ids q)))
                  answer_span w).2)) <$> spans).
Proof.
  intros Hspans Hne. unfold generate_subsample_span, answers_shifted.
  rewrite Hspans, result_bind_Ok, zip_answers_shifted.
  by destruct spans.
Qed.

(** X5: under a valid configuration [generate_subsample_span] returns a
    table exactly for the contexts that are at least as long as the stride:
    it then has [n_sub >= 1] rows; for a shorter context it raises
    [ValueError] (from [np.repeat] or from [np.concatenate]). *)
Theorem generate_subsample_span_short_context (self : Dataset) (q c : Block)
    (answer_span : Z * Z) :
  valid_window_input self (Z.of_nat (length (input_ids q)))
    (Z.of_nat (length (input_ids c))) →
  (Z.of_nat (length (input_ids c)) < stride self →
   generate_subsample_span self q c answer_span = Raise ValueError)
  ∧ (stride self ≤ Z.of_nat (length (input_ids c)) →
     ∃ rows,
       generate_subsample_span self q c answer_span = Ok rows
       ∧ Z.of_nat (length rows)
         = n_sub self (Z.of_nat (length (input_ids q)))
             (Z.of_nat (length (input_ids c)))
       ∧ (1 ≤ length rows)%nat).
Proof.
  intros Hvalid.
  pose proof (valid_window_input_stride_pos _ _ _ Hvalid) as Hpos.
  set (lq := Z.of_nat (length (input_ids q))) in *.
  set (lc := Z.of_nat (length (input_ids c))) in *.
  pose proof (stride_division (lc - stride self) (stride_ self lq) Hpos) as Hq.
  pose proof (n_sub_floor self lq lc ltac:(lia)) as Hn.
  pose proof (subcontext_spans_cases self lq lc ltac:(right; lia)) as Hcases.
  split.
  - intros Hshort. unfold generate_subsample_span. fold lq lc. rewrite Hcases.
    assert (n_sub self lq lc ≤ 0) by nia.
    case_bool_decide; [done|].
    assert (n_sub self lq lc = 0) as Hzero by lia.
    unfold windows_spec. rewrite Hzero. reflexivity.
  - intros Hlong.
    assert (1 ≤ n_sub self lq lc) by nia.
    rewrite bool_decide_eq_false_2 in Hcases by lia.
    pose proof (windows_spec_length self lq lc ltac:(lia)) as Hlenw.
    eexists. split.
    + apply generate_subsample_span_of_spans; [exact Hcases|].
      intros Hnil. rewrite Hnil in Hlenw. simpl in Hlenw. lia.
    + rewrite length_fmap. lia.
Qed.

Lemma generate_subsample_span_short_context_witness :
  generate_subsample_span (config 10 3 1 [-1; 5; -1] 1) example_question
    {| input_ids := [100; 101]; attention_mask := [1; 1] |} (0, 1)
  = Raise ValueError.
Proof.
  apply (generate_subsample_span_short_context
           (config 10 3 1 [-1; 5; -1] 1) example_question
           {| input_ids := [100; 101]; attention_mask := [1; 1] |} (0, 1)).
  - unfold valid_window_input. vm_compute. repeat split; discriminate.
  - vm_compute. reflexivity.
Defined.

(** ** The assembled sample, token by token *)

Lemma combine_loop_two_slots (l1 l2 l3 : list Z) (s1 s2 : Z) (q c : Block) :
  Forall (λ s, 0 ≤ s) l1 → Forall (λ s, 0 ≤ s) l2 → Forall (λ s, 0 ≤ s) l3 →
  s1 < 0 → s2 < 0 →
  combine_loop (l1 ++ s1 :: l2 ++ s2 :: l3)
    (Ok ({| input_ids := []; attention_mask := [] |}, [q; c]))
  = Ok ({| input_ids := l1 ++ input_ids q ++ l2 ++ input_ids c ++ l3;
           attention_mask :=
             replicate (length l1) 1 ++ attention_mask q
             ++ replicate (length l2) 1 ++ attention_mask c
             ++ replicate (length l3) 1 |}, []).
Proof.
  intros H1 H2 H3 Hs1 Hs2.
  rewrite combine_loop_app, combine_loop_literals by done.
  rewrite combine_loop_cons, combine_step_slot by done.
  rewrite combine_loop_app, combine_loop_literals by done.
  rewrite combine_loop_cons, combine_step_slot by done.
  rewrite combine_loop_literals by done.
  simpl. by rewrite <- !app_assoc.
Qed.

(** X6: for a template [l1 ++ [s1] ++ l2 ++ [s2] ++ l3] with two negative
    entries, [__getitem__] returns, for a row and blocks it finds, the
    sequence [l1 ++ question ++ l2 ++ context[start : end + 1] ++ l3]
    followed by [max_length - length] copies of [padding_id]; the attention
    mask is that of the two blocks, 1 on the literals and 0 on the padding;
    the labels are the answer columns of the row. *)
Theorem getitem_closed_form (self : Dataset) (idx : Z) (row : SpanRecord)
    (q c : Block) (l1 l2 l3 : list Z) (s1 s2 : Z) :
  seperators (tokenizer_info self) = l1 ++ s1 :: l2 ++ s2 :: l3 →
  Forall (λ s, 0 ≤ s) l1 → Forall (λ s, 0 ≤ s) l2 → Forall (λ s, 0 ≤ s) l3 →
  s1 < 0 → s2 < 0 →
  py_iloc (subsample_spans self) idx = Ok row →
  _get_instance self (question_id row) question = Ok q →
  _get_instance self (context_id row) context = Ok c →
  let ids :=
    l1 ++ input_ids q ++ l2
    ++ py_slice (input_ids c) (subcontext_start row) (subcontext_end row + 1)
    ++ l3 in
  let mask :=
    replicate (length l1) 1 ++ attention_mask q ++ replicate (length l2) 1
    ++ py_slice (attention_mask c) (subcontext_start row)
         (subcontext_end row + 1)
    ++ replicate (length l3) 1 in
  __getitem__ self idx
  = Ok {| s_input_ids :=
            ids ++ replicate (Z.to_nat (max_length self
                                        - Z.of_nat (length ids)))
                     (padding_id (tokenizer_info self));
          s_attention_mask :=
            mask ++ replicate (Z.to_nat (max_length self
                                         - Z.of_nat (length mask))) 0;
          start_positions := answer_start row;
          end_positions := answer_end row |}.
Proof.
  intros Hseps H1 H2 H3 Hs1 Hs2 Hrow Hq Hc ids mask.
  unfold __getitem__.
  rewrite Hrow, result_bind_Ok, Hq, result_bind_Ok, Hc, result_bind_Ok.
  unfold combine_qc. rewrite Hseps.
  rewrite combine_loop_two_slots by done.
  reflexivity.
Qed.

Lemma getitem_closed_form_witness :
  __getitem__ example_dataset 2
  = Ok {| s_input_ids := [11; 12; 13; 5; 110; 111; 0; 0; 0; 0];
          s_attention_mask := [1; 1; 1; 1; 1; 1; 0; 0; 0; 0];
          start_positions := 0; end_positions := 0 |}.
Proof.
  refine (getitem_closed_form example_dataset 2 (example_row 10 15 0 0)
            example_question example_context [] [5] [] (-1) (-1)
            eq_refl _ _ _ _ _ eq_refl eq_refl eq_refl).
  - constructor.
  - repeat constructor; lia.
  - constructor.
  - lia.
  - lia.
Defined.

(** ** Labels and tokens *)

Lemma py_slice_lookup {A} (l : list A) (a b : Z) (j : nat) :
  0 ≤ a → a + Z.of_nat j < b → a + Z.of_nat j < Z.of_nat (length l) →
  py_slice l a b !! j = l !! Z.to_nat (a + Z.of_nat j).
Proof.
  intros Ha Hb Hl. unfold py_slice, py_slice_bound.
  rewrite !bool_decide_eq_false_2 by lia.
  rewrite lookup_take_lt by lia. rewrite lookup_drop. f_equal. lia.
Qed.

(** A returned pair other than [(0, 0)] is the shifted answer. *)
Lemma shift_answer_not_sentinel (self : Dataset) (len_question : Z)
    (ans_start ans_end cs ce : Z) :
  shift_answer self len_question (ans_start, ans_end) (cs, ce) ≠ (0, 0) →
  shift_answer self len_question (ans_start, ans_end) (cs, ce)
  = (ans_start - cs + len_question + n_seps_before_context self,
     ans_end - cs + len_question + n_seps_before_context self).
Proof. unfold shift_answer. by case_bool_decide. Qed.

Lemma np_count_ge0_app (xs ys : list Z) :
  np_count_ge0 (xs ++ ys) = np_count_ge0 xs + np_count_ge0 ys.
Proof. unfold np_count_ge0, np_ge0. by rewrite fmap_app, py_sum_app. Qed.

Lemma np_count_ge0_literals (l : list Z) :
  Forall (λ s, 0 ≤ s) l → np_count_ge0 l = Z.of_nat (length l).
Proof.
  intros Hl. rewrite np_count_ge0_filter. f_equal.
  induction Hl as [|s l Hs Hl IH]; [done|].
  rewrite filter_cons_True by done. simpl. by rewrite IH.
Qed.

Lemma np_count_ge0_slot (s : Z) (l : list Z) :
  s < 0 → np_count_ge0 (s :: l) = np_count_ge0 l.
Proof.
  intros Hs. rewrite !np_count_ge0_filter.
  by rewrite filter_cons_False by lia.
Qed.

(** The context window starts right after the literals of [l1], the
    question and the literals of [l2]. *)
Lemma assembled_context_token (l1 qids l2 slice rest : list Z) (j : nat) :
  (j < length slice)%nat →
  (l1 ++ qids ++ l2 ++ slice ++ rest)
    !! (length l1 + length qids + length l2 + j)%nat
  = slice !! j.
Proof.
  intros Hj.
  rewrite lookup_app_r by lia. rewrite lookup_app_r by lia.
  rewrite lookup_app_r by lia. rewrite lookup_app_l by lia.
  f_equal. lia.
Qed.

(** X7: for a template [l1 ++ [s1] ++ l2 ++ [-1] ++ l3] (the context slot
    being the last [-1]) and the separator count of lines 69-74, a row whose
    remapped answer is not [(0, 0)] and whose answer lies inside its window
    and inside the context yields a sample whose labels delimit exactly the
    answer: [end - start] is the answer's extent and the tokens at
    [start_positions .. end_positions] of [input_ids] are the context
    tokens at [ans_start .. ans_end]. *)
Theorem labels_point_at_answer (self : Dataset) (idx : Z) (row : SpanRecord)
    (q c : Block) (l1 l2 l3 : list Z) (s1 ans_start ans_end : Z) :
  seperators (tokenizer_info self) = l1 ++ s1 :: l2 ++ -1 :: l3 →
  Forall (λ s, 0 ≤ s) l1 → Forall (λ s, 0 ≤ s) l2 → Forall (λ s, 0 ≤ s) l3 →
  s1 < 0 →
  seps_before_context (seperators (tokenizer_info self))
    = Ok (n_seps_before_context self) →
  py_iloc (subsample_spans self) idx = Ok row →
  _get_instance self (question_id row) question = Ok q →
  _get_instance self (context_id row) context = Ok c →
  (answer_start row, answer_end row)
    = shift_answer self (Z.of_nat (length (input_ids q)))
        (ans_start, ans_end) (subcontext_start row, subcontext_end row) →
  (answer_start row, answer_end row) ≠ (0, 0) →
  0 ≤ subcontext_start row ≤ ans_start →
  ans_start ≤ ans_end →
  ans_end ≤ subcontext_end row →
  ans_end < Z.of_nat (length (input_ids c)) →
  ∃ sample,
    __getitem__ self idx = Ok sample
    ∧ 0 ≤ start_positions sample
    ∧ end_positions sample - start_positions sample = ans_end - ans_start
    ∧ ∀ k : nat, Z.of_nat k ≤ ans_end - ans_start →
        s_input_ids sample !! Z.to_nat (start_positions sample + Z.of_nat k)
        = input_ids c !! Z.to_nat (ans_start + Z.of_nat k).
Proof.
  intros Hseps H1 H2 H3 Hs1 Hbefore Hrow Hq Hc Hshift Hnot Hcs Hans Hce Hlen.
  assert (Hnb : n_seps_before_context self
                = Z.of_nat (length l1) + Z.of_nat (length l2)).
  { rewrite Hseps in Hbefore.
    change (l1 ++ s1 :: l2 ++ -1 :: l3)
      with (l1 ++ (s1 :: l2) ++ -1 :: l3) in Hbefore.
    rewrite app_assoc in Hbefore.
    rewrite seps_before_context_split in Hbefore.
    - injection Hbefore as <-.
      rewrite np_count_ge0_app, np_count_ge0_slot by done.
      by rewrite !np_count_ge0_literals by done.
    - intros Hin. apply (proj1 (Forall_forall _ _) H3) in Hin. lia. }
  rewrite Hshift in Hnot.
  rewrite (shift_answer_not_sentinel _ _ _ _ _ _ Hnot) in Hshift.
  injection Hshift as Hstart Hend.
  eexists. split.
  { unfold __getitem__.
    rewrite Hrow, result_bind_Ok, Hq, result_bind_Ok, Hc, result_bind_Ok.
    unfold combine_qc. rewrite Hseps.
    rewrite combine_loop_two_slots by (done || lia).
    reflexivity. }
  cbn [start_positions end_positions s_input_ids subcontext input_ids
       attention_mask fst].
  split; [lia|]. split; [lia|]. intros k Hk.
  set (slice := py_slice (input_ids c) (subcontext_start row)
                  (subcontext_end row + 1)).
  set (j := Z.to_nat (ans_start - subcontext_start row + Z.of_nat k)).
  assert (Hj : (j < length slice)%nat).
  { pose proof (py_slice_covers (input_ids c) (subcontext_start row)
                  (subcontext_end row + 1) (ans_start + Z.of_nat k)
                  ltac:(lia) ltac:(lia) ltac:(lia)).
    subst j slice. lia. }
  replace (Z.to_nat (answer_start row + Z.of_nat k))
    with (length l1 + length (input_ids q) + length l2 + j)%nat
    by (subst j; lia).
  rewrite <- !app_assoc.
  rewrite assembled_context_token by done.
  subst slice. rewrite py_slice_lookup by (subst j; lia).
  f_equal. subst j. lia.
Qed.

Lemma labels_point_at_answer_witness :
  ∃ sample,
    __getitem__ example_dataset 0 = Ok sample
    ∧ start_positions sample = 6 ∧ end_positions sample = 7
    ∧ s_input_ids sample !! 6%nat = Some 102
    ∧ s_input_ids sample !! 7%nat = Some 103.
Proof.
  destruct (labels_point_at_answer example_dataset 0 (example_row 0 5 6 7)
              example_question example_context [] [5] [] (-1) 2 3)
    as (sample & Hget & _ & _ & Htok).
  - reflexivity.
  - constructor.
  - repeat constructor; lia.
  - constructor.
  - lia.
  - reflexivity.
  - reflexivity.
  - reflexivity.
  - reflexivity.
  - reflexivity.
  - discriminate.
  - simpl. lia.
  - lia.
  - simpl. lia.
  - vm_compute. reflexivity.
  - exists sample. split; [exact Hget|].
    assert (Hs : sample
                 = {| s_input_ids := [11; 12; 13; 5; 100; 101; 102; 103; 104;
                                      105];
                      s_attention_mask := [1; 1; 1; 1; 1; 1; 1; 1; 1; 1];
                      start_positions := 6; end_positions := 7 |}).
    { assert (Hrun : __getitem__ example_dataset 0
                     = Ok {| s_input_ids := [11; 12; 13; 5; 100; 101; 102;
                                             103; 104; 105];
                             s_attention_mask := [1; 1; 1; 1; 1; 1; 1; 1; 1; 1];
                             start_positions := 6; end_positions := 7 |})
        by reflexivity.
      rewrite Hrun in Hget. by injection Hget. }
    subst sample. repeat split.
Defined.

(** ** Templates with another number of slots *)

(** X8: with more than two negative entries in the template the third one
    finds the queue empty: [combine_qc] raises [IndexError], and so does
    [__getitem__] for every row it finds in the table and the store. *)
Theorem getitem_too_many_slots (self : Dataset) (idx : Z) (row : SpanRecord)
    (q c : Block) :
  (2 < n_slots (seperators (tokenizer_info self)))%nat →
  py_iloc (subsample_spans self) idx = Ok row →
  _get_instance self (question_id row) question = Ok q →
  _get_instance self (context_id row) context = Ok c →
  combine_qc self q (subcontext c row) = Raise IndexError
  ∧ __getitem__ self idx = Raise IndexError.
Proof.
  intros Hslots Hrow Hq Hc.
  assert (Hqc : combine_qc self q (subcontext c row) = Raise IndexError).
  { unfold combine_qc. by rewrite combine_loop_too_many_slots. }
  split; [exact Hqc|].
  unfold __getitem__.
  rewrite Hrow, result_bind_Ok, Hq, result_bind_Ok, Hc, result_bind_Ok.
  by rewrite Hqc.
Qed.

Lemma getitem_too_many_slots_witness :
  __getitem__
    (dataset_object (example_dir example_question [-1; 5; -1; -1] [(2, 3)])
       10 1 1 true [] 2 [example_row 0 5 6 7]) 0
  = Raise IndexError.
Proof.
  apply (getitem_too_many_slots
           (dataset_object
              (example_dir example_question [-1; 5; -1; -1] [(2, 3)])
              10 1 1 true [] 2 [example_row 0 5 6 7]) 0
           (example_row 0 5 6 7) example_question example_context).
  - vm_compute. lia.
  - reflexivity.
  - reflexivity.
  - reflexivity.
Defined.

(** Blocks queued behind the ones the template consumes are left alone and
    do not influence the accumulated lists. *)
Lemma combine_loop_frame (seps : list Z) (res : Block)
    (pending extra : list Block) :
  (n_slots seps ≤ length pending)%nat →
  combine_loop seps (Ok (res, pending ++ extra))
  = (λ st : Block * list Block, (st.1, st.2 ++ extra))
    <$> combine_loop seps (Ok (res, pending)).
Proof.
  revert res pending. unfold n_slots.
  induction seps as [|s seps IH]; intros res pending Hlen; [done|].
  rewrite !combine_loop_cons. destruct (decide (0 ≤ s)) as [Hs|Hs].
  - rewrite !combine_step_literal by done.
    rewrite (filter_cons_False (λ s, s < 0)) in Hlen by lia. by apply IH.
  - rewrite (filter_cons_True (λ s, s < 0)) in Hlen by lia.
    destruct pending as [|inst pending]; [simpl in Hlen; lia|].
    rewrite <- app_comm_cons, !combine_step_slot by lia.
    apply IH. simpl in Hlen. lia.
Qed.

(** X9: with fewer than two negative entries in the template [combine_qc]
    never takes the context window off the queue: it returns without an
    error and its result is the same for every context block. *)
Theorem combine_qc_context_unused (self : Dataset) (q c c' : Block) :
  (n_slots (seperators (tokenizer_info self)) ≤ 1)%nat →
  (∃ sub, combine_qc self q c = Ok sub)
  ∧ combine_qc self q c = combine_qc self q c'.
Proof.
  intros Hslots. unfold combine_qc.
  pose proof (combine_loop_frame (seperators (tokenizer_info self))
                {| input_ids := []; attention_mask := [] |} [q] [c]
                ltac:(simpl; lia)) as Hc.
  pose proof (combine_loop_frame (seperators (tokenizer_info self))
                {| input_ids := []; attention_mask := [] |} [q] [c']
                ltac:(simpl; lia)) as Hc'.
  simpl app in Hc, Hc'. rewrite Hc, Hc'.
  destruct (combine_loop_lengths (seperators (tokenizer_info self))
              {| input_ids := []; attention_mask := [] |} [q]
              ltac:(simpl; lia)) as (sub & -> & _).
  split; [by exists sub | done].
Qed.

Lemma combine_qc_context_unused_witness :
  combine_qc (config 10 1 1 [101; -1; 102] 1) example_question example_context
  = combine_qc (config 10 1 1 [101; -1; 102] 1) example_question empty_question.
Proof.
  apply (combine_qc_context_unused (config 10 1 1 [101; -1; 102] 1)
           example_question example_context empty_question).
  vm_compute. lia.
Defined.

(** ** No truncation *)

Lemma assembled_sample_length_general_witness :
  ∃ sample,
    __getitem__
      (dataset_object
         (example_dir example_question [-1; 5; 5; 5; -1] [(0, 0)])
         4 1 1 true [] 3 [example_row 0 5 0 0]) 0
    = Ok sample
    ∧ Z.of_nat (length (s_input_ids sample)) = 12.
Proof.
  destruct (assembled_sample_length_general
              (dataset_object
                 (example_dir example_question [-1; 5; 5; 5; -1] [(0, 0)])
                 4 1 1 true [] 3 [example_row 0 5 0 0]) 0
              (example_row 0 5 0 0) example_question example_context)
    as (sample & Hget & Hlen).
  - reflexivity.
  - reflexivity.
  - reflexivity.
  - reflexivity.
  - exists sample. split; [exact Hget|]. rewrite Hlen. reflexivity.
Defined.

(** ** The table builder *)

Lemma result_mapM_Ok_inv {A B} (f : A → result B) (l : list A) (ys : list B) :
  result_mapM f l = Ok ys → Forall2 (λ x y, f x = Ok y) l ys.
Proof.
  revert ys. induction l as [|x l IH]; intros ys.
  - intros [= <-]. constructor.
  - simpl. intros H.
    apply result_bind_inv in H as (y & Hy & H).
    apply result_bind_inv in H as (ys' & Hys & H).
    injection H as <-. constructor; [done | by apply IH].
Qed.

Lemma result_mapM_first_failure {A B} (f : A → result B)
    (pre post : list A) (a : A) (e : exn) :
  Forall (λ x, is_ok (f x) = true) pre →
  f a = Raise e →
  result_mapM f (pre ++ a :: post) = Raise e.
Proof.
  intros Hpre Ha. induction Hpre as [|x pre Hx Hpre IH].
  - simpl. by rewrite Ha.
  - simpl. destruct (f x) as [y|e']; [|done].
    rewrite result_bind_Ok. by rewrite IH.
Qed.

Lemma result_mapM_some_failure {A B} (f : A → result B) (l : list A) (a : A) :
  a ∈ l → is_ok (f a) = false → is_ok (result_mapM f l) = false.
Proof.
  intros Hin Ha. induction l as [|x l IH]; [by apply elem_of_nil in Hin|].
  simpl. destruct (f x) as [y|e] eqn:Hx; [|done].
  rewrite result_bind_Ok.
  apply elem_of_cons in Hin as [->|Hin].
  - by rewrite Hx in Ha.
  - specialize (IH Hin). by destruct (result_mapM f l).
Qed.

(** X10: the table builder stops at the first annotation that fails (a
    missing block, or a context that yields no window) and raises that
    annotation's exception: no partial table is returned. *)
Theorem table_builder_fails_fast (self : Dataset) (pre post : list Annotation)
    (a : Annotation) (e : exn) :
  answers_span self = pre ++ a :: post →
  Forall (λ x, is_ok (annotation_rows self x) = true) pre →
  annotation_rows self a = Raise e →
  generate_subsamples_span self = Raise e.
Proof.
  intros Hanns Hpre Ha. unfold generate_subsamples_span.
  rewrite Hanns. by rewrite (result_mapM_first_failure _ _ _ _ e Hpre Ha).
Qed.

Lemma table_builder_fails_fast_witness :
  generate_subsamples_span
    (with_answers_span example_dataset
       [ {| a_question_id := "q0"; a_context_id := "c0";
            a_answer_start := 2; a_answer_end := 3 |};
         {| a_question_id := "q0"; a_context_id := "c9";
            a_answer_start := 0; a_answer_end := 0 |};
         {| a_question_id := "q0"; a_context_id := "c0";
            a_answer_start := 4; a_answer_end := 4 |} ])
  = Raise KeyError.
Proof.
  apply (table_builder_fails_fast _
           [ {| a_question_id := "q0"; a_context_id := "c0";
                a_answer_start := 2; a_answer_end := 3 |} ]
           [ {| a_question_id := "q0"; a_context_id := "c0";
                a_answer_start := 4; a_answer_end := 4 |} ]
           {| a_question_id := "q0"; a_context_id := "c9";
              a_answer_start := 0; a_answer_end := 0 |}).
  - reflexivity.
  - repeat constructor.
  - reflexivity.
Defined.

Lemma elem_of_concat_inv {A} (x : A) (ls : list (list A)) :
  x ∈ concat ls → ∃ l, x ∈ l ∧ l ∈ ls.
Proof.
  induction ls as [|l ls IH]; simpl.
  - intros H. by apply elem_of_nil in H.
  - intros [H|H]%elem_of_app.
    + exists l. split; [done | apply elem_of_cons; by left].
    + destruct (IH H) as (l' & Hx & Hl').
      exists l'. split; [done | apply elem_of_cons; by right].
Qed.

(** Rows of one annotation: at least one, all carrying its identifiers,
    which the store holds. *)
Lemma annotation_rows_Ok_inv (self : Dataset) (a : Annotation)
    (rows : list SpanRecord) :
  annotation_rows self a = Ok rows →
  rows ≠ []
  ∧ is_ok (_get_instance self (a_question_id a) question) = true
  ∧ is_ok (_get_instance self (a_context_id a) context) = true
  ∧ ∀ r, r ∈ rows →
      question_id r = a_question_id a ∧ context_id r = a_context_id a.
Proof.
  unfold annotation_rows. intros H.
  apply result_bind_inv in H as (c & Hc & H).
  apply result_bind_inv in H as (q & Hq & H).
  apply result_bind_inv in H as (raw & Hraw & H).
  injection H as <-. rewrite Hc, Hq.
  apply generate_subsample_span_rows in Hraw as (spans & _ & Hne & ->).
  split; [|split; [done|split; [done|]]].
  - destruct spans; [done|]. discriminate.
  - intros r Hr. apply list_elem_of_fmap in Hr as ([[[s e] x] y] & -> & _).
    done.
Qed.

(** Each row of a returned table carries the identifiers of an annotation
    whose question and context the store holds. *)
Lemma table_row_blocks_found (self : Dataset) (rows : list SpanRecord)
    (r : SpanRecord) :
  generate_subsamples_span self = Ok rows →
  r ∈ rows →
  ∃ a, a ∈ answers_span self
       ∧ question_id r = a_question_id a
       ∧ context_id r = a_context_id a
       ∧ is_ok (_get_instance self (question_id r) question) = true
       ∧ is_ok (_get_instance self (context_id r) context) = true.
Proof.
  unfold generate_subsamples_span. intros H Hr.
  apply result_bind_inv in H as (frames & Hframes & H).
  apply result_mapM_Ok_inv in Hframes.
  assert (rows = concat frames) as -> by (destruct frames; congruence).
  apply elem_of_concat_inv in Hr as (fr & Hr & Hfr).
  apply list_elem_of_lookup in Hfr as [i Hi].
  destruct (Forall2_lookup_r _ _ _ _ _ Hframes Hi) as (a & Ha & Hrows).
  apply annotation_rows_Ok_inv in Hrows as (_ & Hq & Hc & Hids).
  destruct (Hids r Hr) as [Hrq Hrc].
  exists a. split; [by apply list_elem_of_lookup_2 with i|].
  rewrite Hrq, Hrc. done.
Qed.

(** X11: a table returned by [generate_subsamples_span] has at least one
    row per annotation (and there is at least one annotation), and each of
    its rows carries the identifiers of an annotation whose question and
    context the store holds. *)
Theorem table_rows_come_from_annotations (self : Dataset)
    (rows : list SpanRecord) :
  generate_subsamples_span self = Ok rows →
  answers_span self ≠ []
  ∧ (length (answers_span self) ≤ length rows)%nat
  ∧ ∀ r, r ∈ rows →
      ∃ a, a ∈ answers_span self
           ∧ question_id r = a_question_id a
           ∧ context_id r = a_context_id a
           ∧ is_ok (_get_instance self (question_id r) question) = true
           ∧ is_ok (_get_instance self (context_id r) context) = true.
Proof.
  intros Hgen. split; [|split].
  - unfold generate_subsamples_span in Hgen. intros Hnil.
    rewrite Hnil in Hgen. discriminate.
  - unfold generate_subsamples_span in Hgen.
    apply result_bind_inv in Hgen as (frames & Hframes & H).
    apply result_mapM_Ok_inv in Hframes.
    assert (rows = concat frames) as -> by (destruct frames; congruence).
    clear H. induction Hframes as [|a fr anns frames Ha _ IH]; [done|].
    apply annotation_rows_Ok_inv in Ha as (Hfr & _).
    simpl. rewrite length_app. destruct fr; [done|]. simpl. lia.
  - intros r Hr. by apply (table_row_blocks_found self rows).
Qed.

Lemma table_rows_come_from_annotations_witness :
  (length (answers_span example_dataset)
   ≤ length [example_row 0 5 6 7; example_row 5 10 0 0;
             example_row 10 15 0 0])%nat.
Proof.
  apply (table_rows_come_from_annotations example_dataset
           [example_row 0 5 6 7; example_row 5 10 0 0; example_row 10 15 0 0]).
  reflexivity.
Defined.

(** ** Construction and access *)

(** The annotation table the constructor works on. *)
Lemma init_inv_selected
    (resample : list SpanRecord → list bool → list SpanRecord)
    (dir : TokenizedDir) (ml st mal : Z) (mem : bool)
    (sel : option (list string)) (ds : Dataset) :
  __init__ resample dir ml st mal mem sel = Ok ds →
  ∃ nb rows,
    let anns :=
      if py_truthy sel
      then filter (λ a, a_question_id a ∈ default [] sel) (dir_answers_span dir)
      else dir_answers_span dir in
    seps_before_context (seperators (dir_tokenizer_info dir)) = Ok nb
    ∧ generate_subsamples_span (dataset_object dir ml st mal mem anns nb [])
      = Ok rows
    ∧ ds = dataset_object dir ml st mal mem anns nb
             (resample rows (answer_end_positive rows)).
Proof.
  unfold __init__. intros H.
  apply result_bind_inv in H as (anns & Hanns & H).
  apply result_bind_inv in H as (nb & Hnb & H).
  apply result_bind_inv in H as (rows & Hrows & H).
  injection H as <-. exists nb, rows. cbv zeta.
  assert (anns = if py_truthy sel
                 then filter (λ a, a_question_id a ∈ default [] sel)
                        (dir_answers_span dir)
                 else dir_answers_span dir) as <-.
  { destruct (py_truthy sel); [|by injection Hanns].
    destruct mem; [by injection Hanns | done]. }
  split; [exact Hnb|]. split; [|reflexivity].
  destruct mem; exact Hrows.
Qed.

Lemma annotation_rows_missing_block (dir : TokenizedDir) (ml st mal : Z)
    (mem : bool) (anns : list Annotation) (nb : Z) (rows : list SpanRecord)
    (a : Annotation) :
  dir_context dir !! a_context_id a = None
  ∨ dir_question dir !! a_question_id a = None →
  is_ok (annotation_rows (dataset_object dir ml st mal mem anns nb rows) a)
  = false.
Proof.
  intros Hmiss. unfold annotation_rows, _get_instance.
  destruct mem; simpl;
    destruct (dir_context dir !! a_context_id a) as [c|] eqn:Hc; try done;
    destruct Hmiss as [Hmiss|Hmiss]; try done;
    by rewrite Hmiss.
Qed.

(** X12: when an annotation the constructor works on (any annotation, or one
    of a selected question) names a context or a question the directory
    does not hold, the constructor returns no object, in either mode and
    for every Balancer. *)
Theorem init_missing_block
    (resample : list SpanRecord → list bool → list SpanRecord)
    (dir : TokenizedDir) (ml st mal : Z) (mem : bool)
    (sel : option (list string)) (a : Annotation) :
  a ∈ dir_answers_span dir →
  (py_truthy sel = true → a_question_id a ∈ default [] sel) →
  dir_context dir !! a_context_id a = None
  ∨ dir_question dir !! a_question_id a = None →
  is_ok (__init__ resample dir ml st mal mem sel) = false.
Proof.
  intros Hin Hsel Hmiss.
  destruct (__init__ resample dir ml st mal mem sel) as [ds|e] eqn:Hinit;
    [|done].
  exfalso.
  apply init_inv_selected in Hinit as (nb & rows & _ & Hrows & _).
  cbv zeta in Hrows.
  set (anns := if py_truthy sel
               then filter (λ a, a_question_id a ∈ default [] sel)
                      (dir_answers_span dir)
               else dir_answers_span dir) in *.
  assert (Ha : a ∈ anns).
  { subst anns. destruct (py_truthy sel); [|done].
    apply list_elem_of_filter. split; [by apply Hsel | done]. }
  unfold generate_subsamples_span in Hrows.
  pose proof (result_mapM_some_failure
                (annotation_rows (dataset_object dir ml st mal mem anns nb []))
                anns a Ha
                (annotation_rows_missing_block dir ml st mal mem anns nb [] a
                   Hmiss)) as Hfail.
  change (answers_span (dataset_object dir ml st mal mem anns nb []))
    with anns in Hrows.
  destruct (result_mapM _ anns); [done | discriminate Hrows].
Qed.

Lemma init_missing_block_witness :
  is_ok (__init__ keep_all
           {| dir_context := ∅;
              dir_question := {[ "q0" := example_question ]};
              dir_tokenizer_info := {| seperators := [-1; 5; -1];
                                       padding_id := 0 |};
              dir_answers_span :=
                [ {| a_question_id := "q0"; a_context_id := "c0";
                     a_answer_start := 2; a_answer_end := 3 |} ] |}
           10 1 1 true None) = false.
Proof.
  apply (init_missing_block keep_all _ 10 1 1 true None
           {| a_question_id := "q0"; a_context_id := "c0";
              a_answer_start := 2; a_answer_end := 3 |}).
  - apply list_elem_of_singleton. reflexivity.
  - discriminate.
  - left. reflexivity.
Defined.

Lemma py_iloc_in_range {A} (l : list A) (idx : Z) :
  - Z.of_nat (length l) ≤ idx < Z.of_nat (length l) →
  ∃ x, py_iloc l idx = Ok x ∧ x ∈ l.
Proof.
  intros Hidx. unfold py_iloc.
  set (i := if bool_decide (idx < 0) then idx + Z.of_nat (length l) else idx).
  assert (Hi : 0 ≤ i < Z.of_nat (length l))
    by (subst i; case_bool_decide; lia).
  rewrite bool_decide_eq_true_2 by done.
  destruct (l !! Z.to_nat i) as [x|] eqn:Hx.
  - exists x. split; [done|]. by apply list_elem_of_lookup_2 with (Z.to_nat i).
  - apply lookup_ge_None in Hx. lia.
Qed.

Lemma py_iloc_out_of_range {A} (l : list A) (idx : Z) :
  idx < - Z.of_nat (length l) ∨ Z.of_nat (length l) ≤ idx →
  py_iloc l idx = Raise IndexError.
Proof.
  intros Hidx. unfold py_iloc.
  rewrite (bool_decide_eq_false_2 (0 ≤ _ < _)); [done|].
  case_bool_decide; lia.
Qed.

Lemma py_iloc_negative {A} (l : list A) (idx : Z) :
  - Z.of_nat (length l) ≤ idx < 0 →
  py_iloc l idx = py_iloc l (idx + Z.of_nat (length l)).
Proof.
  intros Hidx. unfold py_iloc.
  rewrite (bool_decide_eq_true_2 (idx < 0)) by lia.
  by rewrite (bool_decide_eq_false_2 (idx + Z.of_nat (length l) < 0)) by lia.
Qed.

(** X13: [__getitem__] raises [IndexError] for an index outside
    [-len .. len - 1], and a negative index [idx >= -len] returns what the
    index [idx + len] returns: rows are counted from the end. *)
Theorem getitem_index (self : Dataset) (idx : Z) :
  (idx < - __len__ self ∨ __len__ self ≤ idx →
   __getitem__ self idx = Raise IndexError)
  ∧ (- __len__ self ≤ idx < 0 →
     __getitem__ self idx = __getitem__ self (idx + __len__ self)).
Proof.
  unfold __len__, __getitem__. split; intros Hidx.
  - by rewrite py_iloc_out_of_range.
  - by rewrite py_iloc_negative.
Qed.

Lemma getitem_index_witness :
  __getitem__ example_dataset 3 = Raise IndexError
  ∧ __getitem__ example_dataset (-1) = __getitem__ example_dataset 2.
Proof.
  split.
  - apply (proj1 (getitem_index example_dataset 3)). right.
    unfold __len__. simpl. lia.
  - apply (proj2 (getitem_index example_dataset (-1))).
    unfold __len__. simpl. lia.
Defined.

(** X14: after a successful construction with a Balancer that only returns
    rows of the table it is given, and a template with at most two negative
    entries, [__getitem__] returns a sample for every index in
    [-len .. len - 1], labelled with the answer columns of its row: every
    block is found and the assembler does not fail. *)
Theorem getitem_succeeds_after_construction
    (resample : list SpanRecord → list bool → list SpanRecord)
    (dir : TokenizedDir) (ml st mal : Z) (mem : bool)
    (sel : option (list string)) (ds : Dataset) (idx : Z) :
  __init__ resample dir ml st mal mem sel = Ok ds →
  (∀ rows mask r, r ∈ resample rows mask → r ∈ rows) →
  (n_slots (seperators (dir_tokenizer_info dir)) ≤ 2)%nat →
  - __len__ ds ≤ idx < __len__ ds →
  ∃ row sample,
    py_iloc (subsample_spans ds) idx = Ok row
    ∧ __getitem__ ds idx = Ok sample
    ∧ start_positions sample = answer_start row
    ∧ end_positions sample = answer_end row.
Proof.
  intros Hinit Hbal Hslots Hidx.
  apply init_inv in Hinit as (anns & nb & rows & _ & Hrows & ->).
  unfold __len__ in Hidx.
  destruct (py_iloc_in_range _ _ Hidx) as (row & Hrow & Hin).
  apply Hbal in Hin.
  destruct (table_row_blocks_found _ _ _ Hrows Hin)
    as (a & _ & _ & _ & Hq & Hc).
  set (self := dataset_object dir ml st mal mem anns nb
                 (resample rows (answer_end_positive rows))) in *.
  change (_get_instance (dataset_object dir ml st mal mem anns nb [])
            (question_id row) question)
    with (_get_instance self (question_id row) question) in Hq.
  change (_get_instance (dataset_object dir ml st mal mem anns nb [])
            (context_id row) context)
    with (_get_instance self (context_id row) context) in Hc.
  destruct (_get_instance self (question_id row) question) as [q|] eqn:Hgq;
    [|done].
  destruct (_get_instance self (context_id row) context) as [c|] eqn:Hgc;
    [|done].
  destruct (combine_loop_lengths (seperators (tokenizer_info self))
              {| input_ids := []; attention_mask := [] |}
              [q; subcontext c row] ltac:(simpl; lia))
    as (sub & Hsub & _).
  exists row. eexists. split; [exact Hrow|].
  unfold __getitem__.
  rewrite Hrow, result_bind_Ok, Hgq, result_bind_Ok, Hgc, result_bind_Ok.
  unfold combine_qc. rewrite Hsub. simpl. done.
Qed.

Lemma getitem_succeeds_after_construction_witness :
  ∃ row sample,
    py_iloc (subsample_spans example_dataset) (-3) = Ok row
    ∧ __getitem__ example_dataset (-3) = Ok sample
    ∧ start_positions sample = answer_start row
    ∧ end_positions sample = answer_end row.
Proof.
  apply (getitem_succeeds_after_construction keep_all
           (example_dir example_question [-1; 5; -1] [(2, 3)])
           10 1 1 true None example_dataset (-3)).
  - reflexivity.
  - intros rows mask r Hr. exact Hr.
  - vm_compute. lia.
  - unfold __len__. simpl. lia.
Defined.

(** X15: in memory-resident mode with a non-empty [selected_questions], and
    a Balancer that only returns rows of the table it is given, every row
    of the constructed table belongs to a selected question. *)
Theorem selection_restricts_questions
    (resample : list SpanRecord → list bool → list SpanRecord)
    (dir : TokenizedDir) (ml st mal : Z) (sel : option (list string))
    (ds : Dataset) (r : SpanRecord) :
  __init__ resample dir ml st mal true sel = Ok ds →
  py_truthy sel = true →
  (∀ rows mask r, r ∈ resample rows mask → r ∈ rows) →
  r ∈ subsample_spans ds →
  question_id r ∈ default [] sel.
Proof.
  intros Hinit Hsel Hbal Hr.
  apply init_inv_selected in Hinit as (nb & rows & _ & Hrows & ->).
  cbv zeta in Hrows, Hr. rewrite Hsel in Hrows, Hr.
  apply Hbal in Hr.
  destruct (table_row_blocks_found _ _ _ Hrows Hr) as (a & Ha & -> & _).
  change (a ∈ filter (λ a, a_question_id a ∈ default [] sel)
                (dir_answers_span dir)) in Ha.
  by apply list_elem_of_filter in Ha as [Ha _].
Qed.

Lemma selection_restricts_questions_witness :
  question_id (example_row 5 10 0 0) ∈ default [] (Some ["q0"]).
Proof.
  apply (selection_restricts_questions keep_all
           (example_dir example_question [-1; 5; -1] [(2, 3)])
           10 1 1 (Some ["q0"]) example_dataset (example_row 5 10 0 0)).
  - reflexivity.
  - reflexivity.
  - intros rows mask r Hr. exact Hr.
  - apply list_elem_of_lookup_2 with 1%nat. reflexivity.
Defined.


(** ** Failures of the constructor *)

(** X18: whenever line 67 does not fail first (memory-resident mode, or no
    selection), a template without an entry equal to [-1] makes the
    constructor raise [ValueError], whatever the directory holds. *)
Theorem init_template_without_slot
    (resample : list SpanRecord → list bool → list SpanRecord)
    (dir : TokenizedDir) (ml st mal : Z) (mem : bool)
    (sel : option (list string)) :
  mem = true ∨ py_truthy sel = false →
  -1 ∉ seperators (dir_tokenizer_info dir) →
  __init__ resample dir ml st mal mem sel = Raise ValueError.
Proof.
  intros Hmode Hslot. unfold __init__.
  apply seps_before_context_raises in Hslot.
  destruct (py_truthy sel) eqn:Hsel.
  - destruct Hmode as [->|?]; [|done].
    rewrite result_bind_Ok. by rewrite Hslot.
  - rewrite result_bind_Ok. by rewrite Hslot.
Qed.

Lemma init_template_without_slot_witness :
  __init__ keep_all (example_dir example_question [-2; 5; -2] [(2, 3)])
    10 1 1 true None
  = Raise ValueError.
Proof.
  apply (init_template_without_slot keep_all
           (example_dir example_question [-2; 5; -2] [(2, 3)]) 10 1 1 true None).
  - by left.
  - intros H. apply list_elem_of_In in H. simpl in H. intuition lia.
Defined.

(** X19: when no annotation is left to work on (an empty table, or a
    selection that matches no annotation) and the template has an entry
    [-1], the constructor raises [ValueError]: [pd.concat] is given no
    frame. *)
Theorem init_no_annotation
    (resample : list SpanRecord → list bool → list SpanRecord)
    (dir : TokenizedDir) (ml st mal : Z) (mem : bool)
    (sel : option (list string)) :
  mem = true ∨ py_truthy sel = false →
  -1 ∈ seperators (dir_tokenizer_info dir) →
  (if py_truthy sel
   then filter (λ a, a_question_id a ∈ default [] sel) (dir_answers_span dir)
   else dir_answers_span dir) = [] →
  __init__ resample dir ml st mal mem sel = Raise ValueError.
Proof.
  intros Hmode Hslot Hnone. unfold __init__.
  destruct (seps_before_context (seperators (dir_tokenizer_info dir)))
    as [nb|e] eqn:Hnb.
  2:{ exfalso. unfold seps_before_context, py_index in Hnb.
      destruct (list_find (λ y, y = -1)
                  (reverse (seperators (dir_tokenizer_info dir))))
        as [[i y]|] eqn:Hfind; [done|].
      apply list_find_None in Hfind. apply elem_of_reverse in Hslot.
      by apply (proj1 (Forall_forall _ _) Hfind) in Hslot. }
  destruct (py_truthy sel) eqn:Hsel.
  - destruct Hmode as [->|?]; [|done].
    rewrite !result_bind_Ok. unfold generate_subsamples_span.
    cbn [answers_span]. by rewrite Hnone.
  - rewrite !result_bind_Ok. unfold generate_subsamples_span.
    cbn [answers_span]. by rewrite Hnone.
Qed.

Lemma init_no_annotation_witness :
  __init__ keep_all (example_dir example_question [-1; 5; -1] [(2, 3)])
    10 1 1 true (Some ["q7"])
  = Raise ValueError.
Proof.
  apply (init_no_annotation keep_all
           (example_dir example_question [-1; 5; -1] [(2, 3)])
           10 1 1 true (Some ["q7"])).
  - by left.
  - apply list_elem_of_In. simpl. auto.
  - reflexivity.
Defined.

(** ** The extent of a remapped answer *)

(** X20: in every row of [generate_subsample_span] the remapped answer is
    either [(0, 0)] or the answer span moved by
    [len_question + n_seps_before_context - subcontext_start]: it is never
    clipped to the window, and its two ends keep their distance. *)
Theorem remapped_answer_is_a_shift (self : Dataset) (q c : Block)
    (ans_start ans_end : Z) (rows : list (Z * Z * Z * Z)) (s e a b : Z) :
  generate_subsample_span self q c (ans_start, ans_end) = Ok rows →
  (s, e, a, b) ∈ rows →
  (a, b) = (0, 0)
  ∨ (a = ans_start - s + Z.of_nat (length (input_ids q))
         + n_seps_before_context self
     ∧ b - a = ans_end - ans_start).
Proof.
  intros Hgen Hin.
  destruct (generated_row _ _ _ _ _ _ _ _ _ Hgen Hin) as [_ Hshift].
  destruct (decide ((a, b) = (0, 0))) as [|Hnot]; [by left|]. right.
  rewrite Hshift in Hnot.
  rewrite (shift_answer_not_sentinel _ _ _ _ _ _ Hnot) in Hshift.
  injection Hshift as -> ->. split; lia.
Qed.

Lemma remapped_answer_is_a_shift_witness :
  (6, 7) = (0, 0) ∨ (6 = 2 - 0 + 3 + 1 ∧ 7 - 6 = 3 - 2).
Proof.
  apply (remapped_answer_is_a_shift (config 10 1 1 [-1; 5; -1] 1)
           example_question example_context 2 3
           [(0, 5, 6, 7); (5, 10, 0, 0); (10, 15, 0, 0)] 0 5 6 7).
  - reflexivity.
  - apply list_elem_of_lookup_2 with 0%nat. reflexivity.
Defined.

(** ** A context slot other than [-1] *)

(** X21: for a template [l1 ++ [-1] ++ l2 ++ [s2] ++ l3] whose context slot
    [s2] is a negative value other than [-1], lines 69-74 count the literals
    of [l1] only, while the assembler puts the context after those of [l2]
    too: for a row as in X7 the answer tokens sit [length l2] positions after
    the labels. *)
Theorem labels_offset_by_inner_literals (self : Dataset) (idx : Z)
    (row : SpanRecord) (q c : Block) (l1 l2 l3 : list Z)
    (s2 ans_start ans_end : Z) :
  seperators (tokenizer_info self) = l1 ++ -1 :: l2 ++ s2 :: l3 →
  Forall (λ s, 0 ≤ s) l1 → Forall (λ s, 0 ≤ s) l2 → Forall (λ s, 0 ≤ s) l3 →
  s2 < -1 →
  seps_before_context (seperators (tokenizer_info self))
    = Ok (n_seps_before_context self) →
  py_iloc (subsample_spans self) idx = Ok row →
  _get_instance self (question_id row) question = Ok q →
  _get_instance self (context_id row) context = Ok c →
  (answer_start row, answer_end row)
    = shift_answer self (Z.of_nat (length (input_ids q)))
        (ans_start, ans_end) (subcontext_start row, subcontext_end row) →
  (answer_start row, answer_end row) ≠ (0, 0) →
  0 ≤ subcontext_start row ≤ ans_start →
  ans_start ≤ ans_end →
  ans_end ≤ subcontext_end row →
  ans_end < Z.of_nat (length (input_ids c)) →
  ∃ sample,
    __getitem__ self idx = Ok sample
    ∧ n_seps_before_context self = Z.of_nat (length l1)
    ∧ ∀ k : nat, Z.of_nat k ≤ ans_end - ans_start →
        s_input_ids sample
          !! Z.to_nat (start_positions sample + Z.of_nat (length l2)
                       + Z.of_nat k)
        = input_ids c !! Z.to_nat (ans_start + Z.of_nat k).
Proof.
  intros Hseps H1 H2 H3 Hs2 Hbefore Hrow Hq Hc Hshift Hnot Hcs Hans Hce Hlen.
  assert (Hnb : n_seps_before_context self = Z.of_nat (length l1)).
  { rewrite Hseps in Hbefore.
    rewrite seps_before_context_split in Hbefore.
    - injection Hbefore as <-. by rewrite np_count_ge0_literals.
    - intros [Hin|Hin]%elem_of_app.
      + apply (proj1 (Forall_forall _ _) H2) in Hin. lia.
      + apply elem_of_cons in Hin as [Hin|Hin]; [lia|].
        apply (proj1 (Forall_forall _ _) H3) in Hin. lia. }
  rewrite Hshift in Hnot.
  rewrite (shift_answer_not_sentinel _ _ _ _ _ _ Hnot) in Hshift.
  injection Hshift as Hstart Hend.
  eexists. split.
  { unfold __getitem__.
    rewrite Hrow, result_bind_Ok, Hq, result_bind_Ok, Hc, result_bind_Ok.
    unfold combine_qc. rewrite Hseps.
    rewrite combine_loop_two_slots by (done || lia).
    reflexivity. }
  split; [exact Hnb|].
  cbn [start_positions s_input_ids subcontext input_ids attention_mask fst].
  intros k Hk.
  set (slice := py_slice (input_ids c) (subcontext_start row)
                  (subcontext_end row + 1)).
  set (j := Z.to_nat (ans_start - subcontext_start row + Z.of_nat k)).
  assert (Hj : (j < length slice)%nat).
  { pose proof (py_slice_covers (input_ids c) (subcontext_start row)
                  (subcontext_end row + 1) (ans_start + Z.of_nat k)
                  ltac:(lia) ltac:(lia) ltac:(lia)).
    subst j slice. lia. }
  replace (Z.to_nat (answer_start row + Z.of_nat (length l2) + Z.of_nat k))
    with (length l1 + length (input_ids q) + length l2 + j)%nat
    by (subst j; lia).
  rewrite <- !app_assoc.
  rewrite assembled_context_token by done.
  subst slice. rewrite py_slice_lookup by (subst j; lia).
  f_equal. subst j. lia.
Qed.

Lemma labels_offset_by_inner_literals_witness :
  ∃ sample,
    __getitem__
      (dataset_object (example_dir example_question [-1; 5; -2] [(2, 3)])
         10 1 1 true [] 0 [example_row 0 5 5 6]) 0
    = Ok sample
    ∧ start_positions sample = 5
    ∧ s_input_ids sample !! 5%nat = Some 101
    ∧ s_input_ids sample !! 6%nat = Some 102.
Proof.
  destruct (labels_offset_by_inner_literals
              (dataset_object
                 (example_dir example_question [-1; 5; -2] [(2, 3)])
                 10 1 1 true [] 0 [example_row 0 5 5 6]) 0
              (example_row 0 5 5 6) example_question example_context
              [] [5] [] (-2) 2 3)
    as (sample & Hget & _ & Htok).
  - reflexivity.
  - constructor.
  - repeat constructor; lia.
  - constructor.
  - lia.
  - reflexivity.
  - reflexivity.
  - reflexivity.
  - reflexivity.
  - reflexivity.
  - discriminate.
  - simpl. lia.
  - lia.
  - simpl. lia.
  - vm_compute. reflexivity.
  - exists sample. split; [exact Hget|].
    assert (Hs : sample
                 = {| s_input_ids := [11; 12; 13; 5; 100; 101; 102; 103; 104;
                                      105];
                      s_attention_mask := [1; 1; 1; 1; 1; 1; 1; 1; 1; 1];
                      start_positions := 5; end_positions := 6 |}).
    { assert (Hrun : __getitem__
                       (dataset_object
                          (example_dir example_question [-1; 5; -2] [(2, 3)])
                          10 1 1 true [] 0 [example_row 0 5 5 6]) 0
                     = Ok {| s_input_ids := [11; 12; 13; 5; 100; 101; 102;
                                             103; 104; 105];
                             s_attention_mask := [1; 1; 1; 1; 1; 1; 1; 1; 1; 1];
                             start_positions := 5; end_positions := 6 |})
        by reflexivity.
      rewrite Hrun in Hget. by injection Hget. }
    subst sample. repeat split.
Defined.
